(** * mesos-dns: the in-domain resolver and the configuration check

    A shallow embedding of [resolver/resolver.go] (the handler of queries
    for the cluster domain and its helpers) and of [records.Config.Check],
    with the properties of the specification stated against them.

    Go values are modelled as follows.  A Go [string] is a sequence of
    bytes: [string] of the Standard Library.  An [int] that is only
    compared ([Port]) is a [Z]; the [uint32] conversion of the TTL is
    written out.  A [map[string][]string] is a [gmap string (list string)]
    and reading a missing key gives the empty slice ([!!!]).  A slice that
    is updated in place is a [list] with stdpp's lookup and insert, and an
    index out of range is a run-time fault, which the model returns as
    [Panicked].  A function that returns [(value, error)] returns a
    [result]. *)

From Stdlib Require Import ZArith Ascii String List Permutation Lia.
From stdpp Require Import base option list gmap strings.

Local Open Scope string_scope.
Local Open Scope list_scope.
Local Open Scope Z_scope.

(** ** Outcomes of Go calls *)

(** What a call does besides returning: a run-time panic, or the end of
    the process by [os.Exit]. *)
Inductive outcome (A : Type) : Type :=
  | Returned (a : A)
  | Panicked (msg : string)
  | Exited (code : Z).
Arguments Returned {A} a.
Arguments Panicked {A} msg.
Arguments Exited {A} code.

#[global] Instance outcome_ret : MRet outcome := fun A a => Returned a.

#[global] Instance outcome_bind : MBind outcome := fun A B k o =>
  match o with
  | Returned a => k a
  | Panicked msg => Panicked msg
  | Exited code => Exited code
  end.

(** A Go [(value, error)] pair: either the value with a nil error, or the
    error. *)
Inductive result (A : Type) : Type :=
  | Ok (a : A)
  | Err (e : string).
Arguments Ok {A} a.
Arguments Err {A} e.

(** ** The functions of package [strings] that the code calls *)

Module strings.

(** [strings.HasPrefix(s, prefix)]. *)
Fixpoint HasPrefix (s prefix : string) : bool :=
  match prefix, s with
  | EmptyString, _ => true
  | String _ _, EmptyString => false
  | String p prefix', String c s' =>
      if Ascii.eqb c p then HasPrefix s' prefix' else false
  end.

(** [strings.Contains(s, substr)]: [substr] occurs at some offset. *)
Fixpoint Contains (s substr : string) : bool :=
  HasPrefix s substr ||
  match s with
  | EmptyString => false
  | String _ s' => Contains s' substr
  end.

(** The loop of [strings.Replace(s, old, new, -1)] for a non-empty [old]:
    scan from the left; at an occurrence of [old] write [new] and go on
    after the occurrence, otherwise copy one byte.  [skip] counts the
    bytes of an occurrence that are still to be passed over. *)
Fixpoint replaceFrom (skip : nat) (s old new : string) : string :=
  match s with
  | EmptyString => EmptyString
  | String c s' =>
      match skip with
      | S k => replaceFrom k s' old new
      | O =>
          if HasPrefix s old
          then new +:+ replaceFrom (Nat.pred (String.length old)) s' old new
          else String c (replaceFrom O s' old new)
      end
  end.

(** [strings.Replace(s, old, new, -1)], every call of the code passing
    [-1] (all occurrences) and a non-empty literal as [old].  As in Go,
    [old == new] returns [s]. *)
Definition Replace (s old new : string) : string :=
  if decide (old = new) then s else replaceFrom O s old new.

(** [strings.ToLower] on the bytes below 0x80: the letters [A]..[Z] go to
    [a]..[z] and every other byte stays.  (Go maps whole runes; on a
    string of ASCII bytes, which is what a DNS name or domain label is,
    that is this function.  On a string with a byte of 0x80 or above Go
    decodes runes and the model does not follow it: a statement about
    the lower-case form of such a string is not made here.) *)
Definition lowerByte (c : ascii) : ascii :=
  let n := nat_of_ascii c in
  if (Nat.leb 65 n && Nat.leb n 90)%bool then ascii_of_nat (n + 32) else c.

Fixpoint ToLower (s : string) : string :=
  match s with
  | EmptyString => EmptyString
  | String c s' => String (lowerByte c) (ToLower s')
  end.

(** The loop of [strings.Split(s, sep)] for a non-empty [sep]: the pieces
    of [s] between the occurrences of [sep], found from the left and not
    overlapping.  [cur] is the piece being read, [skip] as in
    [replaceFrom]. *)
Fixpoint splitFrom (skip : nat) (s sep cur : string) : list string :=
  match s with
  | EmptyString => [cur]
  | String c s' =>
      match skip with
      | S k => splitFrom k s' sep cur
      | O =>
          if HasPrefix s sep
          then cur :: splitFrom (Nat.pred (String.length sep)) s' sep EmptyString
          else splitFrom O s' sep (cur +:+ String c EmptyString)
      end
  end.

(** [strings.Split(s, sep)], every call of the code passing the
    separator [","]. *)
Definition Split (s sep : string) : list string :=
  splitFrom O s sep EmptyString.

End strings.

(** ** [resolver.cleanWild] *)

(** [cleanWild] strips any wildcards out thus mapping cleanly to the
    original serviceName. *)
Definition cleanWild (dom : string) : string :=
  if strings.Contains dom ".*"
  then strings.Replace dom ".*" ""
  else dom.

(** ** Package [net]: addresses *)

Module net.

(** [net.IP] is a byte slice: 4 bytes, 16 bytes, or nil. *)
Definition IP : Type := list Byte.byte.

Definition IPv4len : nat := 4.
Definition IPv6len : nat := 16.

Definition isZeros (p : IP) : bool :=
  forallb (Byte.eqb Byte.x00) p.

Definition byteAt (ip : IP) (i : nat) : Byte.byte :=
  nth i ip Byte.x00.

(** [IP.To4]: the 4-byte form of an IPv4 address, given in 4 bytes or as
    an IPv4-mapped 16-byte address; nil for anything else. *)
Definition To4 (ip : IP) : IP :=
  if decide (length ip = IPv4len) then ip
  else if bool_decide (length ip = IPv6len)
          && isZeros (take 10 ip)
          && Byte.eqb (byteAt ip 10) Byte.xff
          && Byte.eqb (byteAt ip 11) Byte.xff
  then take 4 (drop 12 ip)
  else [].

(** [net.IPAddr]. *)
Record IPAddr : Type := mkIPAddr { IPAddr_IP : IP; Zone : string }.

End net.

(** ** Package [dns] (miekg): the parts of a message the handler touches *)

Module dns.

Definition TypeA : Z := 1.
Definition TypeNS : Z := 2.
Definition TypeSOA : Z := 6.
Definition TypeAAAA : Z := 28.
Definition TypeSRV : Z := 33.
Definition TypeANY : Z := 255.
Definition ClassINET : Z := 1.

Definition RcodeSuccess : Z := 0.
Definition RcodeServerFailure : Z := 2.
Definition RcodeNameError : Z := 3.
Definition OpcodeQuery : Z := 0.

Record RR_Header : Type := mkHdr {
  Name : string;
  Rrtype : Z;
  Rclass : Z;
  Ttl : Z
}.

(** The resource records that matter here ([dns.RR] is an interface; the
    handler builds [*dns.A], [*dns.AAAA] and [*dns.SRV], the
    specification also speaks of SOA). *)
Inductive RR : Type :=
  | A (Hdr : RR_Header) (addr : net.IP)
  | AAAA (Hdr : RR_Header) (addr : net.IP)
  | SRV (Hdr : RR_Header) (Priority Weight Port : Z) (Target : string)
  | SOA (Hdr : RR_Header) (Ns Mbox : string)
        (Serial Refresh Retry Expire Minttl : Z).

Definition Header (rr : RR) : RR_Header :=
  match rr with
  | A h _ | AAAA h _ | SRV h _ _ _ _ | SOA h _ _ _ _ _ _ _ => h
  end.

Record Question : Type := mkQuestion {
  Q_Name : string;
  Qtype : Z;
  Qclass : Z
}.

Record Msg : Type := mkMsg {
  Id : Z;
  Response : bool;
  Opcode : Z;
  Authoritative : bool;
  RecursionDesired : bool;
  Rcode : Z;
  Questions : list Question;
  Answer : list RR;
  Ns : list RR;
  Extra : list RR
}.

(** [new(dns.Msg)]: the zero value. *)
Definition newMsg : Msg :=
  mkMsg 0 false 0 false false 0 [] [] [] [].

(** [m.SetReply(r)]: a reply to [r] with the id, the first question and
    the recursion-desired bit of [r] and the code for success.  The
    library is not part of the sources; this is its function as the
    handler uses it on a standard query.  On a request of another opcode
    the releases of the library differ (later ones copy the opcode and
    leave the recursion-desired bit alone), and no statement below that
    names the opcode or that bit is made for such a request. *)
Definition SetReply (m r : Msg) : Msg :=
  mkMsg (Id r) true OpcodeQuery (Authoritative m) (RecursionDesired r)
        RcodeSuccess
        (match Questions r with
         | q :: _ => [q]
         | [] => Questions m
         end)
        (Answer m) (Ns m) (Extra m).

Definition setAnswer (m : Msg) (answer : list RR) : Msg :=
  mkMsg (Id m) (Response m) (Opcode m) (Authoritative m)
        (RecursionDesired m) (Rcode m) (Questions m) answer (Ns m) (Extra m).

Definition setAuthoritative (m : Msg) (b : bool) : Msg :=
  mkMsg (Id m) (Response m) (Opcode m) b
        (RecursionDesired m) (Rcode m) (Questions m) (Answer m) (Ns m)
        (Extra m).

(** [m.SetRcode(r, rcode)]: an error reply to [r], with the id and the
    first question of [r]. *)
Definition SetRcode (m r : Msg) (rcode : Z) : Msg :=
  mkMsg (Id r) true OpcodeQuery (Authoritative m) (RecursionDesired m)
        rcode
        (match Questions r with
         | q :: _ => [q]
         | [] => Questions m
         end)
        (Answer m) (Ns m) (Extra m).

End dns.

(** ** Slices *)

(** [l[i]] as a value: a fault when [i] is out of range. *)
Definition index {A} (l : list A) (i : nat) : outcome A :=
  match l !! i with
  | Some x => Returned x
  | None => Panicked "index out of range"
  end.

(** [l[i] = x]: a fault when [i] is out of range. *)
Definition store {A} (l : list A) (i : nat) (x : A) : outcome (list A) :=
  if decide (i < length l)%nat
  then Returned (<[i:=x]> l)
  else Panicked "index out of range".

(** ** Package [math/rand] *)

(** The generator behind [rand.Seed] and [rand.Intn]: [Intn g n] draws a
    number below [n] and gives the next state. *)
Class RandSource : Type := {
  Rand : Type;
  Seed : Z -> Rand;
  Intn : Rand -> nat -> nat * Rand;
  Intn_lt : forall g n, (0 < n)%nat -> (fst (Intn g n) < n)%nat
}.

(** [rand.Intn(n)] panics for [n <= 0]. *)
Definition rand_Intn `{RandSource} (g : Rand) (n : nat) : outcome (nat * Rand) :=
  if decide (n = 0)%nat
  then Panicked "invalid argument to Intn"
  else Returned (Intn g n).

(** A linear congruential generator, to run the code on examples. *)
Definition lcgNext (g : Z) : Z := (g * 1103515245 + 12345) mod 2147483648.

Definition lcg : RandSource.
Proof.
  refine {| Rand := Z;
            Seed := fun now => now mod 2147483648;
            Intn := fun g n => (Z.to_nat (g mod Z.of_nat n), lcgNext g) |}.
  intros g n Hn; simpl.
  pose proof (Z.mod_pos_bound g (Z.of_nat n)); lia.
Defined.

(** ** Package [cli] (codegangsta): what the code asks of a context *)

Module cli.

(** The flags as [LoadFromContext] reads them: whether a flag is set and
    its value as a string, an int or a bool.  [Seconds name] is
    [int(c.Duration(name).Seconds())], a conversion through [float64]
    that is taken from the library as it is. *)
Record Context : Type := mkContext {
  IsSet : string -> bool;
  String_ : string -> string;
  Int : string -> Z;
  Bool : string -> bool;
  Seconds : string -> Z
}.

End cli.

(** ** Package [logging] *)

Module logging.

(** Where a logger writes: [os.Stdout], [os.Stderr], [ioutil.Discard]. *)
Inductive Writer : Type := Stdout | Stderr | Discard.

(** [log.New(out, prefix, flag)]. *)
Record Logger : Type := mkLogger {
  out : Writer;
  prefix : string;
  flag : Z
}.

Definition Ldate : Z := 1.
Definition Ltime : Z := 2.
Definition Lshortfile : Z := 16.

Record LogOut : Type := mkLogOut {
  MesosRequests : Z;
  MesosSuccess : Z;
  MesosNXDomain : Z;
  MesosFailed : Z;
  NonMesosRequests : Z;
  NonMesosSuccess : Z;
  NonMesosNXDomain : Z;
  NonMesosFailed : Z;
  NonMesosRecursed : Z
}.

(** The variables of the package; a logger is a pointer, nil until it is
    assigned. *)
Record Vars : Type := mkVars {
  Info : option Logger;
  Verbose : option Logger;
  VeryVerbose : option Logger;
  Error : option Logger;
  logopts : Z;
  CurLog : LogOut
}.

(** The variables before [init]: every one at its zero value. *)
Definition zero : Vars :=
  mkVars None None None None 0 (mkLogOut 0 0 0 0 0 0 0 0 0).

(** [init]: the [logopts] it computes is declared with [:=], a variable
    of the function; the variable of the package keeps its value. *)
Definition init (v : Vars) : Vars :=
  let logopts' := Z.lor (Z.lor Ldate Ltime) Lshortfile in
  mkVars (Some (mkLogger Stdout "INFO: " logopts'))
         (Some (mkLogger Discard "VERBOSE: " logopts'))
         (Some (mkLogger Discard "VERY VERBOSE: " logopts'))
         (Some (mkLogger Stderr "ERROR: " logopts'))
         (logopts v) (CurLog v).

(** [VerboseEnable]: here [logopts] is the variable of the package. *)
Definition VerboseEnable (v : Vars) : Vars :=
  mkVars (Info v) (Some (mkLogger Stdout "VERBOSE: " (logopts v)))
         (VeryVerbose v) (Error v) (logopts v) (CurLog v).

Definition VeryVerboseEnable (v : Vars) : Vars :=
  let v := VerboseEnable v in
  mkVars (Info v) (Verbose v)
         (Some (mkLogger Stdout "VERY VERBOSE: " (logopts v)))
         (Error v) (logopts v) (CurLog v).

(** A call of one of the two functions that enable a level. *)
Inductive Call : Type := CallVerboseEnable | CallVeryVerboseEnable.

#[global] Instance Call_eq_dec : EqDecision Call.
Proof. solve_decision. Defined.

Definition call (v : Vars) (c : Call) : Vars :=
  match c with
  | CallVerboseEnable => VerboseEnable v
  | CallVeryVerboseEnable => VeryVerboseEnable v
  end.

(** The variables after the start of the program and a sequence of
    calls. *)
Definition after (calls : list Call) : Vars :=
  foldl call (init zero) calls.

(** Whether a logger lets its lines through. *)
Definition enabled (l : option Logger) : bool :=
  match l with
  | Some l => match out l with Discard => false | _ => true end
  | None => false
  end.

End logging.

(** ** Package [records]: the configuration and the generated records *)

Module records.

(** [Config] holds mesos dns configuration. *)
Record Config : Type := mkConfig {
  Masters : list string;
  RefreshSeconds : Z;
  TTL : Z;
  Port : Z;
  Domain : string;
  Resolvers : list string;
  Timeout : Z;
  File : string;
  Email : string;
  Mname : string;
  Listener : string;
  Verbose : bool;
  VeryVerbose : bool
}.

(** [New]: the defaults. *)
Definition New : Config :=
  mkConfig [] 60 60 53 "mesos" ["8.8.8.8"] 5 "" "root.mesos-dns.mesos" ""
           "0.0.0.0" false false.

(** Modelled from the spec: the declaration of [RecordGenerator] (the
    spec's RecordSet) is not among the sources, only its use by the
    resolver is.  The spec gives it a map [As] from a name to its IPv4
    strings and a map [SRVs] from a name to its [host:port] strings. *)
Record RecordGenerator : Type := mkRecordGenerator {
  As : gmap string (list string);
  SRVs : gmap string (list string)
}.

(** What the machine gives [GetLocalDNS]: the servers of
    [/etc/resolv.conf] ([None] when [dns.ClientConfigFromFile] fails) and
    the IPv4 addresses of the local interfaces as [localAddies] prints
    them. *)
Record Host : Type := mkHost {
  resolvConf : option (list string);
  localAddies : list string
}.

(** [nonLocalAddies] only returns non-local ns entries. *)
Definition nonLocalAddies (h : Host) (cservers : list string) : list string :=
  let bad := localAddies h in
  foldl (fun good c =>
           let local := foldl (fun local b =>
                                 if decide (c = b) then true else local)
                              false bad in
           if negb local then good ++ [c] else good)
        [] cservers.

(** [GetLocalDNS] returns the servers of /etc/resolv.conf that are not
    local; the process exits with status 2 when the file cannot be
    read. *)
Definition GetLocalDNS (h : Host) : outcome (list string) :=
  match resolvConf h with
  | None => Exited 2
  | Some servers => Returned (nonLocalAddies h servers)
  end.

(** [s[i:]]: a fault unless [0 <= i <= len(s)]. *)
Definition sliceFrom (s : string) (i : Z) : outcome string :=
  if decide (0 <= i <= Z.of_nat (String.length s))
  then Returned (String.substring (Z.to_nat i)
                                  (String.length s - Z.to_nat i) s)
  else Panicked "slice bounds out of range".

(** [conf.Check()]: the method updates [conf] in place and returns an
    error; the model returns the configuration after the call with the
    error ([None] for nil).  The lines written to the error log are left
    out. *)
Definition Check (h : Host) (conf : Config) : outcome (Config * option string) :=
  if decide (length (Masters conf) = 0)%nat then
    Returned (conf, Some "masters no in file, environment or args")
  else if decide (Port conf < 0 \/ Port conf > 65535) then
    Returned (conf, Some "Port must be between 0-65535")
  else
    resolvers ← (if decide (length (Resolvers conf) = 0)%nat
                 then GetLocalDNS h
                 else Returned (Resolvers conf));
    let email := strings.Replace (Email conf) "@" "." in
    last ← sliceFrom email (Z.of_nat (String.length email) - 1);
    let email := if decide (last ≠ ".") then email +:+ "." else email in
    let domain := strings.ToLower (Domain conf) in
    let mname := "mesos-dns." +:+ domain +:+ "." in
    Returned (mkConfig (Masters conf) (RefreshSeconds conf) (TTL conf)
                       (Port conf) domain resolvers (Timeout conf)
                       (File conf) email mname (Listener conf)
                       (Verbose conf) (VeryVerbose conf),
              None).

(** [conf.LoadFromContext(c)]: the flags that are set replace the values
    of the configuration; the error returned is always nil and is left
    out. *)
Definition LoadFromContext (c : cli.Context) (conf : Config) : Config :=
  let verbose := cli.Bool c "verbose" in
  let masters := if cli.IsSet c "masters"
                 then strings.Split (cli.String_ c "masters") ","
                 else Masters conf in
  let refreshSeconds := if cli.IsSet c "refreshseconds"
                        then cli.Seconds c "refreshseconds"
                        else RefreshSeconds conf in
  let ttl := if cli.IsSet c "ttl" then cli.Seconds c "ttl" else TTL conf in
  let domain := if cli.IsSet c "domain"
                then cli.String_ c "domain" else Domain conf in
  let port := if cli.IsSet c "port" then cli.Int c "port" else Port conf in
  let resolvers := if cli.IsSet c "resolvers"
                   then strings.Split (cli.String_ c "resolvers") ","
                   else Resolvers conf in
  let timeout := if cli.IsSet c "timeout"
                 then cli.Seconds c "timeout" else Timeout conf in
  let listener := if cli.IsSet c "listener"
                  then cli.String_ c "listener" else Listener conf in
  let email := if cli.IsSet c "email"
               then cli.String_ c "email" else Email conf in
  mkConfig masters refreshSeconds ttl port domain resolvers timeout
           (File conf) email (Mname conf) listener verbose
           (VeryVerbose conf).

(** The resolvers after the check, for the statements below: those of
    the configuration, or those of the machine when the configuration has
    none. *)
Definition resolversFor (h : Host) (conf : Config) : outcome (list string) :=
  if decide (length (Resolvers conf) = 0)%nat
  then GetLocalDNS h
  else Returned (Resolvers conf).

End records.

(** ** Package [resolver] *)

(** [uint32(x)] of an [int]. *)
Definition uint32 (x : Z) : Z := x mod 2 ^ 32.

Section Resolver.

Context `{RandSource}.

(** [net.ResolveIPAddr(network, address)]: the answer of the machine's
    name resolution, which the code only calls. *)
Variable ResolveIPAddr : string -> string -> result net.IPAddr.

(** [Resolver] holds configuration information and the resource
    records. *)
Record Resolver : Type := mkResolver {
  rs : records.RecordGenerator;
  Config : records.Config
}.

(** [formatSRV] returns the SRV resource record for target. *)
Definition formatSRV (res : Resolver) (name target : string) : dns.RR :=
  let ttl := uint32 (records.TTL (Config res)) in
  dns.SRV (dns.mkHdr name dns.TypeSRV dns.ClassINET ttl)
          0 0 53 (target +:+ ".").

(** [formatAAAA] returns the AAAA resource record for target. *)
Definition formatAAAA (res : Resolver) (dom target : string) : result dns.RR :=
  let ttl := uint32 (records.TTL (Config res)) in
  match ResolveIPAddr "ip6" target with
  | Err e => Err e
  | Ok ip =>
      let a := net.IPAddr_IP ip in
      Ok (dns.AAAA (dns.mkHdr dom dns.TypeAAAA dns.ClassINET ttl) a)
  end.

(** [formatA] returns the A resource record for target. *)
Definition formatA (res : Resolver) (dom target : string) : result dns.RR :=
  let ttl := uint32 (records.TTL (Config res)) in
  match ResolveIPAddr "ip4" target with
  | Err e => Err e
  | Ok ip =>
      let a := net.IPAddr_IP ip in
      Ok (dns.A (dns.mkHdr dom dns.TypeA dns.ClassINET ttl) (net.To4 a))
  end.

(** The loop of [shuffleAnswers], from index [i] on; [k] is the number of
    rounds still to run, [n - i].  The two elements are read before
    either is written, as Go evaluates the tuple assignment. *)
Fixpoint shuffleFrom (k i n : nat) (g : Rand) (answers : list dns.RR)
  : outcome (list dns.RR) :=
  match k with
  | O => Returned answers
  | S k' =>
      '(x, g') ← rand_Intn g (n - i);
      let r := (i + x)%nat in
      ai ← index answers i;
      ar ← index answers r;
      answers ← store answers r ai;
      answers ← store answers i ar;
      shuffleFrom k' (S i) n g' answers
  end.

(** [shuffleAnswers] reorders answers for very basic load balancing.
    The generator is seeded from the clock, [now]; the slice is
    permuted in place and returned, so the result is also the new
    content of the argument. *)
Definition shuffleAnswers (now : Z) (answers : list dns.RR)
  : outcome (list dns.RR) :=
  let n := length answers in
  shuffleFrom n 0 n (Seed now) answers.

(** [append(m.Answer, rr)] when [err == nil], nothing otherwise (the
    error is printed). *)
Definition appendOk (answer : list dns.RR) (r : result dns.RR) : list dns.RR :=
  match r with
  | Err _ => answer
  | Ok rr => answer ++ [rr]
  end.

(** The branches of [HandleMesos] on the type of the question: the
    answer section after the loop over [res.rs.SRVs[dom]]. *)
Definition answersFor (res : Resolver) (name dom : string) (qType : Z)
           (answer : list dns.RR) : list dns.RR :=
  let targets := records.SRVs (rs res) !!! dom in
  if decide (qType = dns.TypeSRV) then
    foldl (fun answer t => answer ++ [formatSRV res name t]) answer targets
  else if decide (qType = dns.TypeAAAA) then
    foldl (fun answer t => appendOk answer (formatAAAA res dom t))
          answer targets
  else if decide (qType = dns.TypeA) then
    foldl (fun answer t => appendOk answer (formatA res dom t))
          answer targets
  else if decide (qType = dns.TypeANY) then
    foldl (fun answer t =>
             let answer := appendOk answer (formatA res name t) in
             let answer := appendOk answer (formatAAAA res dom t) in
             answer ++ [formatSRV res dom t])
          answer targets
  else answer.

(** [HandleMesos] is a resolver request handler that responds to a
    resource question with resource answer(s); it can handle
    {A, AAAA, SRV, ANY}.  The result is the message given to
    [w.WriteMsg]; the lines printed on the standard output are left
    out. *)
Definition HandleMesos (res : Resolver) (now : Z) (r : dns.Msg)
  : outcome dns.Msg :=
  q ← index (dns.Questions r) 0;
  let dom := cleanWild (dns.Q_Name q) in
  let qType := dns.Qtype q in
  let m := dns.SetReply dns.newMsg r in
  let m := dns.setAnswer m
             (answersFor res (dns.Q_Name q) dom qType (dns.Answer m)) in
  let m := dns.setAuthoritative m true in
  answer ← shuffleAnswers now (dns.Answer m);
  Returned (dns.setAnswer m answer).

End Resolver.

(** ** Package [main]: the guard around the handlers *)

(** What a handler does with its writer and how it ends: the messages
    given to [w.WriteMsg], in order, and the outcome of the call. *)
Definition Handler : Type := dns.Msg -> list dns.Msg * outcome unit.

(** [resolver.HandleMesos] as a handler: it writes once, as its last
    step. *)
Definition HandleMesosW `{RandSource}
           (ResolveIPAddr : string -> string -> result net.IPAddr)
           (res : Resolver) (now : Z) : Handler :=
  fun r =>
    match HandleMesos ResolveIPAddr res now r with
    | Returned m => ([m], Returned tt)
    | Panicked msg => ([], Panicked msg)
    | Exited code => ([], Exited code)
    end.

(** [panicRecover] catches any panics from the resolvers and sets an
    error code of server failure.  (The panic is also written to the
    error log.) *)
Definition panicRecover (f : Handler) : Handler :=
  fun r =>
    let '(written, o) := f r in
    match o with
    | Panicked rec =>
        let m := dns.newMsg in
        let m := dns.SetReply m r in
        let m := dns.SetRcode m r 2 in
        (written ++ [m], Returned tt)
    | _ => (written, o)
    end.

(** ** A machine for the examples *)

(** Dotted-quad IPv4 literals: [cur] is the number being read, [acc] the
    numbers already read. *)
Fixpoint dottedQuad (s : string) (cur : option N) (acc : list N) : option (list N) :=
  match s with
  | EmptyString =>
      match cur with
      | Some n => Some (acc ++ [n])
      | None => None
      end
  | String c s' =>
      let d := N_of_ascii c in
      if (d =? 46)%N then
        match cur with
        | Some n => dottedQuad s' None (acc ++ [n])
        | None => None
        end
      else if ((48 <=? d) && (d <=? 57))%N then
        let n := (10 * default 0 cur + (d - 48))%N in
        if (n <=? 255)%N then dottedQuad s' (Some n) acc else None
      else None
  end.

Definition byteOfN (n : N) : Byte.byte := default Byte.x00 (Byte.of_N n).

(** A machine without name service, for the examples only:
    [net.ResolveIPAddr] answers for an IPv4 literal on the network [ip4],
    with the 16-byte form that [net.ParseIP] gives, and fails for an
    IPv4 literal on [ip6] and for a name.  The targets of the examples
    are of these kinds; an IPv6 literal or the empty target, which
    [net.ResolveIPAddr] answers, is not among them. *)
Definition literalResolveIPAddr (network address : string) : result net.IPAddr :=
  if decide (network = "ip4") then
    match dottedQuad address None [] with
    | Some [a; b; c; d] =>
        Ok (net.mkIPAddr
              (repeat Byte.x00 10 ++ [Byte.xff; Byte.xff] ++
               map byteOfN [a; b; c; d]) "")
    | _ => Err "no such host"
    end
  else Err "no suitable address found".

(** The configuration of the resolver in the tests ([fakeDNS]). *)
Definition fakeConfig : records.Config :=
  records.mkConfig [] 0 60 8053 "mesos" ["8.8.8.8"] 0 ""
                   "root.mesos-dns.mesos." "mesos-dns.mesos." "127.0.0.1"
                   false false.

Definition chronos : string := "chronos.marathon-0.6.0.mesos.".
Definition liquorStore : string := "_liquor-store._udp.marathon-0.6.0.mesos.".

(** Record sets for the examples: the address of [chronos] filed under
    [SRVs], where the handler reads; a service with a [host:port] value;
    a name whose [.*] is not followed by a dot; two addresses of one
    name; one address of a name, filed in both maps. *)
Definition rsChronos : records.RecordGenerator :=
  records.mkRecordGenerator ∅ {[ chronos := ["10.141.141.10"] ]}.

Definition rsLiquor : records.RecordGenerator :=
  records.mkRecordGenerator
    ∅ {[ liquorStore := ["liquor-store.marathon-0.6.0.mesos:31000"] ]}.

Definition rsGlued : records.RecordGenerator :=
  records.mkRecordGenerator ∅ {[ "ab.mesos." := ["10.0.0.1"] ]}.

Definition rsBob : records.RecordGenerator :=
  records.mkRecordGenerator ∅ {[ "bob.mesos." := ["10.0.0.1"; "10.0.0.2"] ]}.


(** A generator that plays back a list of draws: each call of [Intn]
    takes the next number of the list, reduced below [n]. *)
Definition scripted (script : list nat) : RandSource.
Proof.
  refine {| Rand := list nat;
            Seed := fun _ => script;
            Intn := fun g n => (Nat.modulo (hd O g) n, tl g) |}.
  intros g n Hn; simpl. apply Nat.mod_upper_bound. lia.
Defined.

(** A context with the given flags set, as strings, and no other:
    numbers are read in decimal by [readInt]. *)
Definition flagsContext (flags : gmap string string) (readInt : string -> Z)
  : cli.Context :=
  cli.mkContext (fun name => bool_decide (is_Some (flags !! name)))
                (fun name => default "" (flags !! name))
                (fun name => readInt (default "" (flags !! name)))
                (fun name => bool_decide (is_Some (flags !! name)))
                (fun name => readInt (default "" (flags !! name))).

(** ** The words of the specification, to compare the code with *)

(** The lookup name as the specification words it: the name with any
    literal [.*.] collapsed to [.]. *)
Definition collapseWild (qname : string) : string :=
  strings.Replace qname ".*." ".".

(** Every [@] rewritten to [.], byte by byte. *)
Fixpoint rewriteAt (s : string) : string :=
  match s with
  | EmptyString => EmptyString
  | String c s' =>
      String (if Ascii.eqb c "@" then "."%char else c) (rewriteAt s')
  end.

(** The last byte of a string, if any. *)
Fixpoint lastByte (s : string) : option ascii :=
  match s with
  | EmptyString => None
  | String c EmptyString => Some c
  | String _ s' => lastByte s'
  end.

(** The record of a [(record, error)] pair when the error is nil. *)
Definition okRR (r : result dns.RR) : option dns.RR :=
  match r with
  | Ok rr => Some rr
  | Err _ => None
  end.

(** The Rname as the specification words it: any [@] rewritten to [.],
    and a trailing [.] appended if missing. *)
Definition dotEmail (email : string) : string :=
  let e := rewriteAt email in
  if decide (lastByte e = Some "."%char) then e else e +:+ ".".

(** Configurations and machines for the examples: a valid configuration
    whose e-mail has an [@]; the same with an empty e-mail; the same
    with no resolver; a machine without [/etc/resolv.conf] and one with
    two servers there, the second one local. *)
Definition confGood : records.Config :=
  records.mkConfig ["127.0.0.1:5050"] 60 60 53 "Mesos" ["8.8.8.8"] 5 ""
                   "root@mesos-dns.mesos" "" "0.0.0.0" false false.

Definition confEmptyEmail : records.Config :=
  records.mkConfig ["127.0.0.1:5050"] 60 60 53 "mesos" ["8.8.8.8"] 5 ""
                   "" "" "0.0.0.0" false false.

Definition confNoResolvers : records.Config :=
  records.mkConfig ["127.0.0.1:5050"] 60 60 53 "mesos" [] 5 ""
                   "root.mesos-dns.mesos" "" "0.0.0.0" false false.

Definition hostBare : records.Host := records.mkHost None [].

Definition hostTwoServers : records.Host :=
  records.mkHost (Some ["10.0.0.53"; "127.0.0.1"]) ["127.0.0.1"].

(** A question and the query that carries it. *)
Definition query (name : string) (qtype : Z) : dns.Msg :=
  dns.mkMsg 7 false dns.OpcodeQuery false true 0
            [dns.mkQuestion name qtype dns.ClassINET] [] [] [].

(** ** Further examples and words for the statements *)

(** Three backends of one service, as in the test of the handler, and
    two records to shuffle. *)
Definition rsLiquor3 : records.RecordGenerator :=
  records.mkRecordGenerator
    ∅ {[ liquorStore := ["10.0.0.1"; "10.0.0.2"; "10.0.0.3"] ]}.

Definition rrOne : dns.RR :=
  dns.A (dns.mkHdr chronos dns.TypeA dns.ClassINET 60)
        [Byte.x0a; Byte.x00; Byte.x00; Byte.x01].

Definition rrTwo : dns.RR :=
  dns.A (dns.mkHdr chronos dns.TypeA dns.ClassINET 60)
        [Byte.x0a; Byte.x00; Byte.x00; Byte.x02].

(** The type a record is by its constructor; [None] for the one kind
    the handler never builds. *)
Definition builtType (rr : dns.RR) : option Z :=
  match rr with
  | dns.A _ _ => Some dns.TypeA
  | dns.AAAA _ _ => Some dns.TypeAAAA
  | dns.SRV _ _ _ _ _ => Some dns.TypeSRV
  | dns.SOA _ _ _ _ _ _ _ _ => None
  end.

(** The records of one target for a question of type ANY. *)
Definition anyRecords (resolve : string -> string -> result net.IPAddr)
           (res : Resolver) (name dom target : string) : list dns.RR :=
  option_list (okRR (formatA resolve res name target)) ++
  option_list (okRR (formatAAAA resolve res dom target)) ++
  [formatSRV res dom target].

(** A record as the handler builds them: an A, AAAA or SRV record whose
    header has the type of its kind, the class IN and the TTL of the
    configuration as a [uint32]. *)
Definition builtBy (res : Resolver) (rr : dns.RR) : Prop :=
  builtType rr = Some (dns.Rrtype (dns.Header rr)) /\
  dns.Rclass (dns.Header rr) = dns.ClassINET /\
  dns.Ttl (dns.Header rr) = uint32 (records.TTL (Config res)).

(** A string of bytes below 0x80, on which [strings.ToLower] of Go and
    the byte-wise [strings.ToLower] above are the same function. *)
Fixpoint isASCII (s : string) : bool :=
  match s with
  | EmptyString => true
  | String c s' => Nat.ltb (nat_of_ascii c) 128 && isASCII s'
  end.

(** A request with two questions. *)
Definition twoQuestions : dns.Msg :=
  dns.mkMsg 4711 false dns.OpcodeQuery false false 0
            [dns.mkQuestion chronos dns.TypeA dns.ClassINET;
             dns.mkQuestion liquorStore dns.TypeSRV dns.ClassINET] [] [] [].

(** [confGood] after the check, and a command line that gives the
    masters and nothing else. *)
Definition confChecked : records.Config :=
  records.mkConfig ["127.0.0.1:5050"] 60 60 53 "mesos" ["8.8.8.8"] 5 ""
                   "root.mesos-dns.mesos." "mesos-dns.mesos." "0.0.0.0"
                   false false.

Definition hostAllLocal : records.Host :=
  records.mkHost (Some ["127.0.0.1"]) ["127.0.0.1"].

Definition onlyMasters : cli.Context :=
  flagsContext {[ "masters" := "10.0.0.1:5050,10.0.0.2:5050" ]} (fun _ => 0).

(** * Properties *)

(** ** Strings *)

Section StringFacts.

Import strings.

Lemma HasPrefix_nil (s : string) : HasPrefix s "" = true.
Proof. destruct s; reflexivity. Qed.

(** Without an occurrence of [old] the replacement loop copies [s]. *)
Lemma replaceFrom_absent (s old new : string) :
  Contains s old = false -> replaceFrom O s old new = s.
Proof.
  induction s as [|c s IH]; intros Hc; [reflexivity|].
  cbn [Contains] in Hc. apply orb_false_iff in Hc as [Hp Hrest].
  cbn [replaceFrom]. rewrite Hp. f_equal. auto.
Qed.

Lemma Replace_absent (s old new : string) :
  Contains s old = false -> Replace s old new = s.
Proof.
  intros Hc. unfold Replace. case_decide; [reflexivity|].
  by apply replaceFrom_absent.
Qed.

(** Replacing the one-byte string [@] is the byte-wise rewriting. *)
Lemma Replace_at (s : string) : Replace s "@" "." = rewriteAt s.
Proof.
  unfold Replace. case_decide; [discriminate|].
  induction s as [|c s IH]; [reflexivity|].
  cbn [replaceFrom rewriteAt HasPrefix String.length Nat.pred].
  rewrite HasPrefix_nil.
  destruct (Ascii.eqb c "@"); cbn; by rewrite IH.
Qed.

Lemma rewriteAt_length (s : string) :
  String.length (rewriteAt s) = String.length s.
Proof. induction s; cbn; congruence. Qed.

Lemma rewriteAt_no_at (s : string) : Contains (rewriteAt s) "@" = false.
Proof.
  induction s as [|c s IH]; [reflexivity|].
  cbn [rewriteAt Contains]. rewrite IH, orb_false_r.
  destruct (Ascii.eqb c "@") eqn:E; cbn [HasPrefix]; [reflexivity|].
  by destruct (Ascii.eqb c "@").
Qed.

Lemma Contains_app_dot (s : string) :
  Contains s "@" = false -> Contains (s +:+ ".") "@" = false.
Proof.
  induction s as [|c s IH]; [reflexivity|].
  change (String c s +:+ ".") with (String c (s +:+ ".")).
  cbn [Contains HasPrefix]. rewrite !HasPrefix_nil.
  intros Hc. apply orb_false_iff in Hc as [Hp Hrest].
  rewrite Hp. cbn. auto.
Qed.

Lemma lastByte_app_dot (s : string) : lastByte (s +:+ ".") = Some "."%char.
Proof.
  induction s as [|c s IH]; [reflexivity|].
  change (String c s +:+ ".") with (String c (s +:+ ".")).
  cbn [lastByte]. rewrite IH.
  destruct (s +:+ ".") eqn:E; [|reflexivity].
  destruct s; discriminate.
Qed.

(** The last byte, as the slice [s[len(s)-1:]] gives it. *)
Lemma substring_last (s : string) (c : ascii) :
  lastByte s = Some c ->
  String.substring (String.length s - 1) 1 s = String c "".
Proof.
  induction s as [|a s IH]; [discriminate|].
  destruct s as [|b s].
  - cbn. by intros [= ->].
  - intros Hl. change (lastByte (String b s) = Some c) in Hl.
    specialize (IH Hl).
    cbn [String.length] in *.
    replace (S (S (String.length s)) - 1)%nat
      with (S (S (String.length s) - 1))%nat by lia.
    exact IH.
Qed.

Lemma lastByte_is_Some (s : string) : s <> "" -> is_Some (lastByte s).
Proof.
  induction s as [|a s IH]; [congruence|]. intros _.
  destruct s as [|b s]; [by eexists|].
  apply IH. discriminate.
Qed.

Lemma sliceFrom_last (s : string) (c : ascii) :
  lastByte s = Some c ->
  records.sliceFrom s (Z.of_nat (String.length s) - 1) = Returned (String c "").
Proof.
  intros Hl. unfold records.sliceFrom.
  assert (String.length s <> 0)%nat by (destruct s; [discriminate|cbn; lia]).
  case_decide; [|lia].
  f_equal.
  replace (Z.to_nat (Z.of_nat (String.length s) - 1))
    with (String.length s - 1)%nat by lia.
  replace (String.length s - (String.length s - 1))%nat with 1%nat by lia.
  by apply substring_last.
Qed.

Lemma sliceFrom_empty :
  records.sliceFrom "" (Z.of_nat (String.length "") - 1)
  = Panicked "slice bounds out of range".
Proof. reflexivity. Qed.

End StringFacts.

(** ** Shuffling *)

Section ShuffleFacts.

Context `{RandSource}.

Lemma insert_head_Permutation {A} (l : list A) (r : nat) (x y : A) :
  l !! r = Some y -> y :: <[r:=x]> l ≡ₚ x :: l.
Proof.
  revert r. induction l as [|a l IH]; intros [|r]; simpl; try done.
  - intros [= ->]. apply Permutation_swap.
  - intros Hr. rewrite (Permutation_swap a y), (IH r Hr).
    apply Permutation_swap.
Qed.

(** Exchanging two elements of a slice permutes it. *)
Lemma exchange_Permutation {A} (l : list A) (i r : nat) (a b : A) :
  l !! i = Some a -> l !! r = Some b -> <[i:=b]> (<[r:=a]> l) ≡ₚ l.
Proof.
  revert i r. induction l as [|x l IH]; intros [|i] [|r]; simpl; try done.
  - by intros [= ->] [= ->].
  - intros [= ->] Hr. by apply insert_head_Permutation.
  - intros Hi [= ->]. by apply insert_head_Permutation.
  - intros Hi Hr. by rewrite IH.
Qed.

Lemma index_lt {A} (l : list A) (i : nat) :
  (i < length l)%nat -> exists x, l !! i = Some x /\ index l i = Returned x.
Proof.
  intros Hi. destruct (lookup_lt_is_Some_2 l i Hi) as [x Hx].
  exists x. split; [done|]. unfold index. by rewrite Hx.
Qed.

Lemma store_lt {A} (l : list A) (i : nat) (x : A) :
  (i < length l)%nat -> store l i x = Returned (<[i:=x]> l).
Proof. intros Hi. unfold store. by case_decide. Qed.

(** Every round of the loop stays inside the slice and exchanges two of
    its elements. *)
Lemma shuffleFrom_Permutation (k i n : nat) (g : Rand) (l : list dns.RR) :
  length l = n -> (k + i = n)%nat ->
  exists l', shuffleFrom k i n g l = Returned l' /\ l' ≡ₚ l.
Proof.
  revert i g l. induction k as [|k IH]; intros i g l Hlen Hk.
  - by exists l.
  - cbn [shuffleFrom]. unfold rand_Intn. case_decide; [lia|].
    pose proof (Intn_lt g (n - i)%nat ltac:(lia)) as Hx.
    destruct (Intn g (n - i)) as [x g']. cbn in Hx |- *.
    destruct (index_lt l i ltac:(lia)) as (ai & Hai & ->).
    destruct (index_lt l (i + x) ltac:(lia)) as (ar & Har & ->). cbn.
    rewrite store_lt by lia. cbn.
    rewrite store_lt by (rewrite length_insert; lia). cbn.
    destruct (IH (S i) g' (<[i:=ar]> (<[(i + x)%nat:=ai]> l))) as (l' & Hl' & Hp).
    + by rewrite !length_insert.
    + lia.
    + exists l'. split; [done|]. rewrite Hp.
      by apply exchange_Permutation.
Qed.

End ShuffleFacts.

(** ** The handler *)

Section HandlerFacts.

Context `{RandSource}.
Variable ResolveIPAddr : string -> string -> result net.IPAddr.

Lemma foldl_append {A B} (f : A -> B) (acc : list B) (ts : list A) :
  foldl (fun answer t => answer ++ [f t]) acc ts = acc ++ map f ts.
Proof.
  revert acc. induction ts as [|t ts IH]; intros acc; simpl.
  - by rewrite app_nil_r.
  - by rewrite IH, <- app_assoc.
Qed.

Lemma foldl_appendOk {A} (f : A -> result dns.RR) (acc : list dns.RR) (ts : list A) :
  foldl (fun answer t => appendOk answer (f t)) acc ts
  = acc ++ omap (fun t => okRR (f t)) ts.
Proof.
  revert acc. induction ts as [|t ts IH]; intros acc; simpl.
  - by rewrite app_nil_r.
  - rewrite IH. unfold appendOk, okRR.
    destruct (f t); [by rewrite <- app_assoc | done].
Qed.

(** A question of type SRV: one record for each target, in order. *)
Lemma answersFor_SRV (res : Resolver) (name dom : string) :
  answersFor ResolveIPAddr res name dom dns.TypeSRV []
  = map (formatSRV res name) (records.SRVs (rs res) !!! dom).
Proof.
  unfold answersFor. rewrite decide_True by done.
  apply (foldl_append (formatSRV res name) []).
Qed.

(** A question of type A: one record for each target that resolves. *)
Lemma answersFor_A (res : Resolver) (name dom : string) :
  answersFor ResolveIPAddr res name dom dns.TypeA []
  = omap (fun t => okRR (formatA ResolveIPAddr res dom t))
         (records.SRVs (rs res) !!! dom).
Proof.
  unfold answersFor.
  rewrite decide_False, decide_False, decide_True by done.
  apply (foldl_appendOk (formatA ResolveIPAddr res dom) []).
Qed.

(** A question of type AAAA: one record for each target that resolves on
    the network [ip6]. *)
Lemma answersFor_AAAA (res : Resolver) (name dom : string) :
  answersFor ResolveIPAddr res name dom dns.TypeAAAA []
  = omap (fun t => okRR (formatAAAA ResolveIPAddr res dom t))
         (records.SRVs (rs res) !!! dom).
Proof.
  unfold answersFor.
  rewrite decide_False, decide_True by done.
  apply (foldl_appendOk (formatAAAA ResolveIPAddr res dom) []).
Qed.

(** The port of an SRV record does not depend on the target. *)
Lemma formatSRV_fields (res : Resolver) (name target : string) :
  formatSRV res name target
  = dns.SRV (dns.mkHdr name dns.TypeSRV dns.ClassINET
                       (uint32 (records.TTL (Config res))))
            0 0 53 (target +:+ ".").
Proof. reflexivity. Qed.

(** Outside SRV and ANY the requested name is not written into any
    record: only the cleaned name is. *)
Lemma answersFor_name (res : Resolver) (name name' dom : string) (qType : Z) :
  qType <> dns.TypeSRV -> qType <> dns.TypeANY ->
  answersFor ResolveIPAddr res name dom qType []
  = answersFor ResolveIPAddr res name' dom qType [].
Proof.
  intros Hsrv Hany. unfold answersFor.
  repeat case_decide; done.
Qed.

(** The records of the answer depend on the record set only through the
    targets filed under [dom], and on the configuration. *)
Lemma answersFor_targets (res res' : Resolver) (name dom : string) (qType : Z) :
  Config res = Config res' ->
  records.SRVs (rs res) !!! dom = records.SRVs (rs res') !!! dom ->
  answersFor ResolveIPAddr res name dom qType []
  = answersFor ResolveIPAddr res' name dom qType [].
Proof.
  intros Hc Ht. unfold answersFor, formatA, formatAAAA, formatSRV.
  by rewrite Hc, Ht.
Qed.

(** The message the handler writes for a request with a question. *)
Lemma HandleMesos_unfold (res : Resolver) (now : Z) (r : dns.Msg)
      (q : dns.Question) (qs : list dns.Question) :
  dns.Questions r = q :: qs ->
  HandleMesos ResolveIPAddr res now r
  = (answer ← shuffleAnswers now
                (answersFor ResolveIPAddr res (dns.Q_Name q)
                            (cleanWild (dns.Q_Name q)) (dns.Qtype q) []);
     Returned (dns.mkMsg (dns.Id r) true dns.OpcodeQuery true
                         (dns.RecursionDesired r) dns.RcodeSuccess [q]
                         answer [] [])).
Proof.
  intros Hq.
  unfold HandleMesos, index, dns.SetReply, dns.setAnswer, dns.setAuthoritative.
  rewrite Hq. reflexivity.
Qed.

(** With a question in the request the handler always writes a reply:
    code 0, authoritative, empty authority and additional sections, and
    a permutation of the records built for the question. *)
Lemma HandleMesos_reply (res : Resolver) (now : Z) (r : dns.Msg)
      (q : dns.Question) (qs : list dns.Question) :
  dns.Questions r = q :: qs ->
  exists m,
    HandleMesos ResolveIPAddr res now r = Returned m /\
    dns.Rcode m = dns.RcodeSuccess /\
    dns.Authoritative m = true /\
    dns.Ns m = [] /\
    dns.Extra m = [] /\
    dns.Answer m ≡ₚ answersFor ResolveIPAddr res (dns.Q_Name q)
                                (cleanWild (dns.Q_Name q)) (dns.Qtype q) [].
Proof.
  intros Hq. rewrite (HandleMesos_unfold _ _ _ _ _ Hq).
  unfold shuffleAnswers.
  edestruct shuffleFrom_Permutation as (l' & -> & Hp); [reflexivity|lia|].
  eexists. split; [reflexivity|]. by repeat split.
Qed.

End HandlerFacts.

(** ** The claims on the shuffle and on the answers *)

(** C6. [shuffleAnswers] returns, and what it returns is a permutation of
    its argument: the same records with the same multiplicities, hence
    the same number of records. *)
Theorem shuffleAnswers_Permutation `{RandSource} (now : Z) (answers : list dns.RR) :
  exists shuffled,
    shuffleAnswers now answers = Returned shuffled /\
    shuffled ≡ₚ answers /\
    length shuffled = length answers.
Proof.
  unfold shuffleAnswers.
  destruct (shuffleFrom_Permutation (length answers) 0 (length answers)
              (Seed now) answers) as (l' & Hl' & Hp); [done|lia|].
  exists l'. repeat split; [done|done|by rewrite Hp].
Qed.


(** C2 on the code.  The value [liquor-store.marathon-0.6.0.mesos:31000]
    filed under the service name gives one SRV record with priority 0 and
    weight 0, but its port is the constant 53 and its target is the whole
    value with a dot, port included. *)
Theorem HandleMesos_SRV_port_53 :
  HandleMesos (H:=lcg) literalResolveIPAddr (mkResolver rsLiquor fakeConfig)
              0 (query liquorStore dns.TypeSRV)
  = Returned
      (dns.mkMsg 7 true dns.OpcodeQuery true true dns.RcodeSuccess
         [dns.mkQuestion liquorStore dns.TypeSRV dns.ClassINET]
         [dns.SRV (dns.mkHdr liquorStore dns.TypeSRV dns.ClassINET 60)
                  0 0 53 "liquor-store.marathon-0.6.0.mesos:31000."]
         [] []).
Proof. vm_compute. reflexivity. Qed.

(** C3 on the code.  A question of type AAAA for a name without records
    is answered with code 0, not 3. *)
Theorem HandleMesos_AAAA_missing_rcode_0 :
  HandleMesos (H:=lcg) literalResolveIPAddr (mkResolver rsChronos fakeConfig)
              0 (query "missing.mesos." dns.TypeAAAA)
  = Returned
      (dns.mkMsg 7 true dns.OpcodeQuery true true dns.RcodeSuccess
         [dns.mkQuestion "missing.mesos." dns.TypeAAAA dns.ClassINET]
         [] [] []).
Proof. vm_compute. reflexivity. Qed.

(** C4 on the code.  A question of type A for a name without records is
    answered with code 0 and an empty authority section: no NXDOMAIN and
    no SOA record. *)
Theorem HandleMesos_missing_rcode_0 :
  HandleMesos (H:=lcg) literalResolveIPAddr (mkResolver rsChronos fakeConfig)
              0 (query "missing.mesos." dns.TypeA)
  = Returned
      (dns.mkMsg 7 true dns.OpcodeQuery true true dns.RcodeSuccess
         [dns.mkQuestion "missing.mesos." dns.TypeA dns.ClassINET]
         [] [] []).
Proof. vm_compute. reflexivity. Qed.

(** C5 on the code.  The record of [chronos] is found under the name in
    lower case and not under a variant in another case: the two replies
    differ in the answer section, one record against none. *)
Theorem HandleMesos_case_sensitive :
  strings.ToLower "cHrOnOs.MARATHON-0.6.0.mesoS." = chronos /\
  strings.ToLower chronos = chronos /\
  HandleMesos (H:=lcg) literalResolveIPAddr (mkResolver rsChronos fakeConfig)
              0 (query chronos dns.TypeA)
  = Returned
      (dns.mkMsg 7 true dns.OpcodeQuery true true dns.RcodeSuccess
         [dns.mkQuestion chronos dns.TypeA dns.ClassINET]
         [dns.A (dns.mkHdr chronos dns.TypeA dns.ClassINET 60)
                [Byte.x0a; Byte.x8d; Byte.x8d; Byte.x0a]]
         [] []) /\
  HandleMesos (H:=lcg) literalResolveIPAddr (mkResolver rsChronos fakeConfig)
              0 (query "cHrOnOs.MARATHON-0.6.0.mesoS." dns.TypeA)
  = Returned
      (dns.mkMsg 7 true dns.OpcodeQuery true true dns.RcodeSuccess
         [dns.mkQuestion "cHrOnOs.MARATHON-0.6.0.mesoS." dns.TypeA
                         dns.ClassINET]
         [] [] []).
Proof. repeat split; vm_compute; reflexivity. Qed.

(** C7 on the code.  A question of type SOA is answered with code 0 and
    without any record: no SOA in the answer section, none in the
    authority section. *)
Theorem HandleMesos_SOA_empty :
  HandleMesos (H:=lcg) literalResolveIPAddr (mkResolver rsChronos fakeConfig)
              0 (query "non-existing.mesos." dns.TypeSOA)
  = Returned
      (dns.mkMsg 7 true dns.OpcodeQuery true true dns.RcodeSuccess
         [dns.mkQuestion "non-existing.mesos." dns.TypeSOA dns.ClassINET]
         [] [] []).
Proof. vm_compute. reflexivity. Qed.

(** Whatever the records, the name and the type asked for, the reply has
    code 0 and nothing in its authority section. *)
Lemma HandleMesos_always_success `{RandSource}
      (ResolveIPAddr : string -> string -> result net.IPAddr)
      (res : Resolver) (now : Z) (name : string) (qtype : Z) :
  exists m,
    HandleMesos ResolveIPAddr res now (query name qtype) = Returned m /\
    dns.Rcode m = dns.RcodeSuccess /\ dns.Ns m = [].
Proof.
  destruct (HandleMesos_reply ResolveIPAddr res now (query name qtype)
              (dns.mkQuestion name qtype dns.ClassINET) [] eq_refl)
    as (m & Hm & Hrc & _ & Hns & _).
  by exists m.
Qed.

(** ** The wildcard *)

Lemma cleanWild_Replace (dom : string) :
  cleanWild dom = strings.Replace dom ".*" "".
Proof.
  unfold cleanWild. destruct (strings.Contains dom ".*") eqn:Hc; [done|].
  by rewrite Replace_absent.
Qed.

(** C8 as the specification words it fails: in [a.*b.mesos.] no [.*.]
    occurs, so collapsing [.*.] to [.] leaves the name as it is and no
    record is filed under it; the handler looks up [ab.mesos.] and
    answers with the record filed there. *)
Lemma cleanWild_not_collapseWild :
  collapseWild "a.*b.mesos." = "a.*b.mesos." /\
  cleanWild "a.*b.mesos." = "ab.mesos." /\
  records.SRVs rsGlued !! collapseWild "a.*b.mesos." = None /\
  HandleMesos (H:=lcg) literalResolveIPAddr (mkResolver rsGlued fakeConfig)
              0 (query "a.*b.mesos." dns.TypeA)
  = Returned
      (dns.mkMsg 7 true dns.OpcodeQuery true true dns.RcodeSuccess
         [dns.mkQuestion "a.*b.mesos." dns.TypeA dns.ClassINET]
         [dns.A (dns.mkHdr "ab.mesos." dns.TypeA dns.ClassINET 60)
                [Byte.x0a; Byte.x00; Byte.x00; Byte.x01]]
         [] []).
Proof. repeat split; vm_compute; reflexivity. Qed.

(** The number of records of an answer does not depend on the name that
    was requested, only on the cleaned name and on the type. *)
Lemma answersFor_name_length `{RandSource}
      (ResolveIPAddr : string -> string -> result net.IPAddr)
      (res : Resolver) (name name' dom : string) (qType : Z)
      (acc acc' : list dns.RR) :
  length acc = length acc' ->
  length (answersFor ResolveIPAddr res name dom qType acc)
  = length (answersFor ResolveIPAddr res name' dom qType acc').
Proof.
  unfold answersFor. generalize (records.SRVs (rs res) !!! dom).
  intros ts Hlen. repeat case_decide; [| | | |done];
    revert acc acc' Hlen; induction ts as [|t ts IH]; intros acc acc' Hlen;
    cbn [foldl]; try done; apply IH;
    unfold appendOk, formatA, formatAAAA;
    destruct (ResolveIPAddr "ip4" t), (ResolveIPAddr "ip6" t);
    rewrite ?length_app; cbn [length]; lia.
Qed.

(** C8, as the code has it.  The name used for the lookup is the
    requested name with every literal [.*] removed, so [bob.*.mesos.] is
    looked up as [bob.mesos.].  The lookup does take place under that
    name: a question of type SRV gets as many records as there are
    entries under it, a question of type A gets the address of every
    entry under it that resolves, and the reply depends on the record set
    only through the entries under it.  Two requests whose names clean to
    the same name and whose type is the same get, at any two times,
    replies with the same code, the same authority and additional
    sections and the same number of answers; unless the type is SRV or
    ANY (the two that echo the requested name) the answers are the same
    records, in the order the shuffle gives each time. *)
Theorem HandleMesos_cleanWild `{RandSource}
        (ResolveIPAddr : string -> string -> result net.IPAddr)
        (res : Resolver) (now now' : Z) (r r' : dns.Msg)
        (q q' : dns.Question) (qs qs' : list dns.Question) :
  dns.Questions r = q :: qs ->
  dns.Questions r' = q' :: qs' ->
  let dom := cleanWild (dns.Q_Name q) in
  dom = strings.Replace (dns.Q_Name q) ".*" "" /\
  cleanWild "bob.*.mesos." = "bob.mesos." /\
  (exists m,
     HandleMesos ResolveIPAddr res now r = Returned m /\
     (dns.Qtype q = dns.TypeSRV ->
      length (dns.Answer m) = length (records.SRVs (rs res) !!! dom)) /\
     (dns.Qtype q = dns.TypeA ->
      forall target ip,
        target ∈ records.SRVs (rs res) !!! dom ->
        ResolveIPAddr "ip4" target = Ok ip ->
        exists hdr, dns.A hdr (net.To4 (net.IPAddr_IP ip)) ∈ dns.Answer m)) /\
  (forall res' : Resolver,
     Config res = Config res' ->
     records.SRVs (rs res) !!! dom = records.SRVs (rs res') !!! dom ->
     HandleMesos ResolveIPAddr res now r = HandleMesos ResolveIPAddr res' now r) /\
  (cleanWild (dns.Q_Name q') = dom ->
   dns.Qtype q' = dns.Qtype q ->
   exists m m',
     HandleMesos ResolveIPAddr res now r = Returned m /\
     HandleMesos ResolveIPAddr res now' r' = Returned m' /\
     dns.Rcode m = dns.Rcode m' /\
     dns.Ns m = dns.Ns m' /\
     dns.Extra m = dns.Extra m' /\
     length (dns.Answer m) = length (dns.Answer m') /\
     (dns.Qtype q <> dns.TypeSRV -> dns.Qtype q <> dns.TypeANY ->
      dns.Answer m ≡ₚ dns.Answer m')).
Proof.
  intros Hq Hq' dom.
  destruct (HandleMesos_reply ResolveIPAddr res now r q qs Hq)
    as (m & Hm & Hrc & _ & Hns & Hex & Hp). fold dom in Hp.
  split; [apply cleanWild_Replace|]. split; [reflexivity|].
  split; [|split].
  - exists m. split; [done|]. split.
    + intros Ht. rewrite Hp, Ht, answersFor_SRV. apply length_map.
    + intros Ht target ip Hin Hres.
      exists (dns.mkHdr dom dns.TypeA dns.ClassINET
                        (uint32 (records.TTL (Config res)))).
      rewrite Hp, Ht, answersFor_A. apply list_elem_of_omap.
      exists target. split; [done|]. unfold formatA. by rewrite Hres.
  - intros res' Hc Ht.
    rewrite !(HandleMesos_unfold _ _ _ _ _ _ Hq).
    by rewrite (answersFor_targets _ res res' _ _ _ Hc Ht).
  - intros Hdom Hty.
    destruct (HandleMesos_reply ResolveIPAddr res now' r' q' qs' Hq')
      as (m' & Hm' & Hrc' & _ & Hns' & Hex' & Hp').
    rewrite Hdom, Hty in Hp'.
    exists m, m'. split; [done|]. split; [done|].
    split; [congruence|]. split; [congruence|]. split; [congruence|].
    split.
    + rewrite Hp, Hp'. by apply answersFor_name_length.
    + intros Hsrv Hany. rewrite Hp, Hp'.
      by rewrite (answersFor_name _ res (dns.Q_Name q) (dns.Q_Name q') _ _
                                  Hsrv Hany).
Qed.

(** The scenario of C8: [bob.*.mesos.] and [bob.mesos.], type A, asked
    at two different times. *)
Lemma HandleMesos_cleanWild_bob :
  exists m m',
    HandleMesos (H:=lcg) literalResolveIPAddr (mkResolver rsBob fakeConfig)
                3 (query "bob.*.mesos." dns.TypeA) = Returned m /\
    HandleMesos (H:=lcg) literalResolveIPAddr (mkResolver rsBob fakeConfig)
                4 (query "bob.mesos." dns.TypeA) = Returned m' /\
    dns.Rcode m = dns.Rcode m' /\
    dns.Ns m = dns.Ns m' /\
    dns.Extra m = dns.Extra m' /\
    dns.Answer m ≡ₚ dns.Answer m' /\
    exists hdr,
      dns.A hdr [Byte.x0a; Byte.x00; Byte.x00; Byte.x01] ∈ dns.Answer m.
Proof.
  destruct (HandleMesos_cleanWild (H:=lcg) literalResolveIPAddr
              (mkResolver rsBob fakeConfig) 3 4
              (query "bob.*.mesos." dns.TypeA) (query "bob.mesos." dns.TypeA)
              (dns.mkQuestion "bob.*.mesos." dns.TypeA dns.ClassINET)
              (dns.mkQuestion "bob.mesos." dns.TypeA dns.ClassINET)
              [] [] eq_refl eq_refl)
    as (_ & _ & (m0 & Hm0 & _ & Haddr) & _ & Hsame).
  destruct (Hsame eq_refl eq_refl)
    as (m & m' & Hm & Hm' & Hrc & Hns & Hex & _ & Hp).
  rewrite Hm in Hm0. injection Hm0 as <-.
  exists m, m'. split; [exact Hm|]. split; [exact Hm'|].
  split; [exact Hrc|]. split; [exact Hns|]. split; [exact Hex|].
  split.
  - apply Hp; discriminate.
  - assert ("10.0.0.1" ∈ records.SRVs rsBob !!! "bob.mesos.") as Hin
      by (apply list_elem_of_In; vm_compute; left; reflexivity).
    exact (Haddr eq_refl "10.0.0.1"
             (net.mkIPAddr
                (repeat Byte.x00 10 ++ [Byte.xff; Byte.xff] ++
                 [Byte.x0a; Byte.x00; Byte.x00; Byte.x01]) "")
             Hin eq_refl).
Defined.

(** ** The configuration check *)

Section CheckFacts.

Import records.

Lemma lastByte_rewriteAt (s : string) :
  lastByte (rewriteAt s)
  = (fun c => if Ascii.eqb c "@" then "."%char else c) <$> lastByte s.
Proof.
  induction s as [|a s IH]; [reflexivity|].
  destruct s as [|b s]; [reflexivity|].
  etransitivity; [|exact IH]. reflexivity.
Qed.

(** Past the two tests, [Check] either stops in [GetLocalDNS], or faults
    on an empty e-mail, or returns nil with the e-mail, the domain, the
    resolvers and the Mname set. *)
Lemma Check_valid (h : Host) (conf : Config) :
  Masters conf <> [] -> 0 <= Port conf <= 65535 ->
  Check h conf
  = match resolversFor h conf with
    | Returned resolvers =>
        match lastByte (Email conf) with
        | None => Panicked "slice bounds out of range"
        | Some _ =>
            Returned (mkConfig (Masters conf) (RefreshSeconds conf) (TTL conf)
                        (Port conf) (strings.ToLower (Domain conf)) resolvers
                        (Timeout conf) (File conf) (dotEmail (Email conf))
                        ("mesos-dns." +:+ strings.ToLower (Domain conf) +:+ ".")
                        (Listener conf) (Verbose conf) (VeryVerbose conf),
                      None)
        end
    | Panicked msg => Panicked msg
    | Exited code => Exited code
    end.
Proof.
  intros Hm Hp. unfold Check, resolversFor.
  rewrite decide_False by (destruct (Masters conf); [done|cbn; lia]).
  rewrite decide_False by lia.
  destruct (if decide (length (Resolvers conf) = 0)%nat
            then GetLocalDNS h else Returned (Resolvers conf))
    as [resolvers|msg|code]; [|done|done].
  cbn. rewrite Replace_at.
  destruct (lastByte (Email conf)) as [c|] eqn:Hl.
  - pose proof (lastByte_rewriteAt (Email conf)) as Hl'. rewrite Hl in Hl'.
    cbn in Hl'. rewrite (sliceFrom_last _ _ Hl'). cbn.
    unfold dotEmail. rewrite Hl'.
    repeat case_decide; try done; congruence.
  - destruct (Email conf) as [|a e]; [reflexivity|].
    destruct (lastByte_is_Some (String a e)) as [c Hc]; [done|congruence].
Qed.

End CheckFacts.

Lemma dotEmail_no_at (email : string) :
  strings.Contains (dotEmail email) "@" = false.
Proof.
  unfold dotEmail. case_decide.
  - apply rewriteAt_no_at.
  - apply Contains_app_dot, rewriteAt_no_at.
Qed.

Lemma dotEmail_last (email : string) :
  lastByte (dotEmail email) = Some "."%char.
Proof. unfold dotEmail. case_decide; [done|apply lastByte_app_dot]. Qed.

(** C9 as the specification words it fails: non-empty masters and a port
    in range do not make [Check] report success.  With an empty e-mail it
    faults on the last character, and with no resolver on a machine
    without [/etc/resolv.conf] the process exits with status 2 inside
    [GetLocalDNS]; neither call returns, with or without an error. *)
Lemma Check_not_always_success :
  (records.Masters confEmptyEmail <> [] /\
   0 <= records.Port confEmptyEmail <= 65535 /\
   records.Check hostBare confEmptyEmail = Panicked "slice bounds out of range" /\
   ~ exists conf' err,
       records.Check hostBare confEmptyEmail = Returned (conf', err)) /\
  (records.Masters confNoResolvers <> [] /\
   0 <= records.Port confNoResolvers <= 65535 /\
   records.Check hostBare confNoResolvers = Exited 2 /\
   ~ exists conf' err,
       records.Check hostBare confNoResolvers = Returned (conf', err)).
Proof.
  split; (split; [discriminate|]); (split; [cbn; lia|]);
    (split; [reflexivity|]); intros (conf' & err & Hc); discriminate Hc.
Qed.

(** C9, as the code has it.  [Check] returns an error exactly when the
    masters are empty or the port is outside 0..65535.  With masters, a
    port in range, a non-empty e-mail, and resolvers in the configuration
    or an [/etc/resolv.conf] that can be read, it returns nil. *)
Theorem Check_error_iff (h : records.Host) (conf : records.Config) :
  ((exists conf' e, records.Check h conf = Returned (conf', Some e)) <->
   (records.Masters conf = [] \/
    records.Port conf < 0 \/ records.Port conf > 65535)) /\
  (records.Masters conf <> [] ->
   0 <= records.Port conf <= 65535 ->
   records.Email conf <> "" ->
   records.Resolvers conf <> [] \/ is_Some (records.resolvConf h) ->
   exists conf', records.Check h conf = Returned (conf', None)).
Proof.
  split; [split|].
  - intros (conf' & e & Hc).
    destruct (records.Masters conf) as [|m ms] eqn:Hm; [by left|right].
    destruct (decide (0 <= records.Port conf <= 65535)) as [Hp|Hp]; [|lia].
    rewrite Check_valid in Hc by (done || congruence).
    destruct (records.resolversFor h conf); [|done|done].
    by destruct (lastByte (records.Email conf)).
  - intros Hbad. unfold records.Check.
    destruct Hbad as [Hm|Hp].
    + rewrite Hm. cbn. by do 2 eexists.
    + case_decide; [by do 2 eexists|].
      rewrite decide_True by lia. by do 2 eexists.
  - intros Hm Hp He Hr. rewrite Check_valid by done.
    assert (exists resolvers, records.resolversFor h conf = Returned resolvers)
      as [resolvers ->].
    { unfold records.resolversFor, records.GetLocalDNS. case_decide; [|by eexists].
      destruct Hr as [Hr|[servers ->]]; [|by eexists].
      destruct (records.Resolvers conf); [done|cbn in *; lia]. }
    destruct (lastByte_is_Some _ He) as [c ->]. by eexists.
Qed.

(** The defaults with a master, on a machine without resolv.conf. *)
Lemma Check_error_iff_confGood :
  exists conf', records.Check hostBare confGood = Returned (conf', None).
Proof.
  apply (proj2 (Check_error_iff hostBare confGood)).
  - discriminate.
  - cbn; lia.
  - discriminate.
  - left; discriminate.
Defined.

(** C10.  With masters, a port in 0..65535 and resolvers in the
    configuration: when the e-mail is not empty, [Check] returns nil and
    leaves as e-mail the old one with every [@] rewritten to [.] and a
    [.] at the end (appended if it was missing), so no [@] is left and
    the last byte is [.]; when the e-mail is empty, [Check] faults on
    reading its last character. *)
Theorem Check_accepts (h : records.Host) (conf : records.Config) :
  records.Masters conf <> [] ->
  0 <= records.Port conf <= 65535 ->
  records.Resolvers conf <> [] ->
  (records.Email conf <> "" ->
   exists conf',
     records.Check h conf = Returned (conf', None) /\
     records.Email conf' = dotEmail (records.Email conf) /\
     strings.Contains (records.Email conf') "@" = false /\
     lastByte (records.Email conf') = Some "."%char) /\
  (records.Email conf = "" ->
   records.Check h conf = Panicked "slice bounds out of range").
Proof.
  intros Hm Hp Hr. rewrite Check_valid by done.
  unfold records.resolversFor.
  rewrite decide_False by (destruct (records.Resolvers conf); [done|cbn; lia]).
  split.
  - intros He. destruct (lastByte_is_Some _ He) as [c ->].
    eexists. split; [reflexivity|]. cbn.
    split; [done|]. split; [apply dotEmail_no_at|apply dotEmail_last].
  - by intros ->.
Qed.

(** An e-mail with an [@] and without the final dot. *)
Lemma Check_accepts_confGood :
  exists conf',
    records.Check hostBare confGood = Returned (conf', None) /\
    records.Email conf' = dotEmail (records.Email confGood) /\
    strings.Contains (records.Email conf') "@" = false /\
    lastByte (records.Email conf') = Some "."%char.
Proof.
  apply (Check_accepts hostBare confGood).
  - discriminate.
  - cbn; lia.
  - discriminate.
  - discriminate.
Defined.

(** ** The examples of the tests *)

Example cleanWild_test : cleanWild "bob.*.mesos" = "bob.mesos".
Proof. reflexivity. Qed.

Example cleanWild_twice : cleanWild "a.*.*.mesos." = "a.mesos.".
Proof. reflexivity. Qed.

Example dotEmail_confGood :
  dotEmail (records.Email confGood) = "root.mesos-dns.mesos.".
Proof. reflexivity. Qed.

Example Check_confGood :
  records.Check hostTwoServers
    (records.mkConfig ["127.0.0.1:5050"] 60 60 53 "Mesos" [] 5 ""
                      "root@mesos-dns.mesos" "" "0.0.0.0" false false)
  = Returned
      (records.mkConfig ["127.0.0.1:5050"] 60 60 53 "mesos" ["10.0.0.53"] 5 ""
                        "root.mesos-dns.mesos." "mesos-dns.mesos." "0.0.0.0"
                        false false,
       None).
Proof. reflexivity. Qed.

Example Check_no_masters :
  records.Check hostBare records.New
  = Returned (records.New, Some "masters no in file, environment or args").
Proof. reflexivity. Qed.

Example shuffleAnswers_reorders :
  shuffleAnswers (H:=lcg) 1
    [formatSRV (mkResolver rsBob fakeConfig) "x." "a";
     formatSRV (mkResolver rsBob fakeConfig) "x." "b";
     formatSRV (mkResolver rsBob fakeConfig) "x." "c"]
  = Returned
      [formatSRV (mkResolver rsBob fakeConfig) "x." "b";
       formatSRV (mkResolver rsBob fakeConfig) "x." "a";
       formatSRV (mkResolver rsBob fakeConfig) "x." "c"].
Proof. vm_compute. reflexivity. Qed.

(** * Further properties of the code *)

(** ** The shuffle can give every order *)

(** One round, on a generator that plays back [j :: g]: the element at
    [j] places after [i] comes to [i]. *)
Lemma shuffleFrom_scripted_round (script : list nat) (k : nat) (g : list nat)
      (pre suf : list dns.RR) (j : nat) (x y : dns.RR) :
  length suf = S k ->
  suf !! O = Some y -> suf !! j = Some x ->
  shuffleFrom (H:=scripted script) (S k) (length pre)
              (length pre + length suf) (j :: g) (pre ++ suf)
  = shuffleFrom (H:=scripted script) k (S (length pre))
                (length pre + length suf) g
                (pre ++ <[O:=x]> (<[j:=y]> suf)).
Proof.
  intros Hlen Hy Hx.
  assert (j < length suf)%nat as Hj by (by eapply lookup_lt_Some).
  cbn [shuffleFrom]. unfold rand_Intn.
  rewrite decide_False by lia. cbn [mbind outcome_bind].
  replace (length pre + length suf - length pre)%nat with (length suf) by lia.
  change (@Intn (scripted script) (j :: g) (length suf)) with (Nat.modulo j (length suf), g).
  cbn beta iota. rewrite (Nat.mod_small j) by lia.
  unfold index.
  rewrite (lookup_app_r pre suf (length pre)) by lia.
  rewrite Nat.sub_diag, Hy. cbn [mbind outcome_bind].
  rewrite (lookup_app_r pre suf (length pre + j)) by lia.
  replace (length pre + j - length pre)%nat with j by lia.
  rewrite Hx. cbn [mbind outcome_bind].
  rewrite store_lt by (rewrite length_app; lia). cbn [mbind outcome_bind].
  rewrite insert_app_r.
  rewrite store_lt by (rewrite length_app, length_insert; lia).
  cbn [mbind outcome_bind].
  rewrite (insert_app_r_alt pre _ (length pre)) by lia.
  by rewrite Nat.sub_diag.
Qed.

(** Every order of the records behind the first [length pre] is the
    outcome of the remaining rounds for some sequence of draws. *)
Lemma shuffleFrom_scripted_reaches (suf' pre suf : list dns.RR) :
  suf' ≡ₚ suf ->
  exists g, forall script,
    shuffleFrom (H:=scripted script) (length suf) (length pre)
                (length pre + length suf) g (pre ++ suf)
    = Returned (pre ++ suf').
Proof.
  revert pre suf. induction suf' as [|x suf' IH]; intros pre suf Hp.
  - apply Permutation_nil in Hp as ->. exists []. intros script. reflexivity.
  - assert (x ∈ suf) as Hin by (rewrite <- Hp; left).
    apply list_elem_of_lookup in Hin as [j Hx].
    destruct suf as [|y suf]; [done|].
    assert (<[O:=x]> (<[j:=y]> (y :: suf)) ≡ₚ y :: suf) as Hex
      by (by apply exchange_Permutation).
    destruct (<[j:=y]> (y :: suf)) as [|z rest] eqn:Hrest;
      [by destruct j|].
    cbn [insert list_insert] in Hex.
    assert (suf' ≡ₚ rest) as Hp'.
    { apply (Permutation_cons_inv (a:=x)). by rewrite Hp, Hex. }
    destruct (IH (pre ++ [x]) rest Hp') as [g Hg].
    assert (length rest = length suf) as Hlen.
    { apply (f_equal length) in Hrest. rewrite length_insert in Hrest.
      cbn in Hrest. lia. }
    exists (j :: g). intros script.
    pose proof (shuffleFrom_scripted_round script (length suf) g pre
                  (y :: suf) j x y eq_refl eq_refl Hx) as Hround.
    rewrite Hrest in Hround. cbn [insert list_insert] in Hround.
    etransitivity; [exact Hround|].
    specialize (Hg script).
    rewrite length_app, <- app_assoc in Hg. cbn [length app] in Hg.
    rewrite Hlen in Hg.
    replace (length pre + 1)%nat with (S (length pre)) in Hg by lia.
    replace (S (length pre) + length suf)%nat
      with (length pre + length (y :: suf))%nat in Hg by (cbn; lia).
    by rewrite <- app_assoc in Hg.
Qed.

(** X1. For every permutation of the answers there is a generator for
    which [shuffleAnswers] returns that very permutation: the shuffle
    excludes no order. *)
Theorem shuffleAnswers_reaches (answers shuffled : list dns.RR) :
  shuffled ≡ₚ answers ->
  exists (R : RandSource) (now : Z),
    shuffleAnswers (H:=R) now answers = Returned shuffled.
Proof.
  intros Hp.
  destruct (shuffleFrom_scripted_reaches shuffled [] answers Hp) as [g Hg].
  exists (scripted g), 0. unfold shuffleAnswers. apply (Hg g).
Qed.

(** X2. A list with at most one record comes back as it is, whatever the
    generator draws. *)
Theorem shuffleAnswers_short `{RandSource} (now : Z) (answers : list dns.RR) :
  (length answers <= 1)%nat ->
  shuffleAnswers now answers = Returned answers.
Proof.
  destruct answers as [|a [|b l]]; cbn [length]; [done| |lia].
  intros _. unfold shuffleAnswers. cbn [length shuffleFrom].
  unfold rand_Intn. rewrite decide_False by done. cbn [mbind outcome_bind].
  pose proof (Intn_lt (Seed now) 1 ltac:(lia)) as Hx.
  destruct (Intn (Seed now) (1 - 0)) as [x g] eqn:E.
  change (1 - 0)%nat with 1%nat in E. rewrite E in Hx. cbn in Hx.
  assert (x = 0)%nat as -> by lia. reflexivity.
Qed.

Lemma shuffleAnswers_short_one :
  shuffleAnswers (H:=lcg) 5 [rrOne] = Returned [rrOne].
Proof. apply (shuffleAnswers_short (H:=lcg) 5 [rrOne]). cbn. lia. Defined.

Lemma shuffleAnswers_reaches_swap :
  exists (R : RandSource) (now : Z),
    shuffleAnswers (H:=R) now [rrOne; rrTwo] = Returned [rrTwo; rrOne].
Proof.
  apply (shuffleAnswers_reaches [rrOne; rrTwo] [rrTwo; rrOne]).
  apply Permutation_swap.
Defined.

(** ** More on the handler *)

Section HandlerMore.

Context `{RandSource}.
Variable ResolveIPAddr : string -> string -> result net.IPAddr.

Lemma foldl_any {A} (fA fAAAA : A -> result dns.RR) (fS : A -> dns.RR)
      (acc : list dns.RR) (ts : list A) :
  foldl (fun answer t =>
           let answer := appendOk answer (fA t) in
           let answer := appendOk answer (fAAAA t) in
           answer ++ [fS t]) acc ts
  = acc ++ flat_map (fun t => option_list (okRR (fA t)) ++
                              option_list (okRR (fAAAA t)) ++ [fS t]) ts.
Proof.
  revert acc. induction ts as [|t ts IH]; intros acc; cbn [foldl flat_map].
  - by rewrite app_nil_r.
  - rewrite IH. unfold appendOk, okRR.
    destruct (fA t), (fAAAA t); cbn [option_list];
      by rewrite <- ?app_assoc.
Qed.

Lemma answersFor_ANY (res : Resolver) (name dom : string) :
  answersFor ResolveIPAddr res name dom dns.TypeANY []
  = flat_map (anyRecords ResolveIPAddr res name dom)
             (records.SRVs (rs res) !!! dom).
Proof.
  unfold answersFor.
  rewrite decide_False, decide_False, decide_False, decide_True by done.
  apply (foldl_any (formatA ResolveIPAddr res name)
                   (formatAAAA ResolveIPAddr res dom)
                   (formatSRV res dom) []).
Qed.

Lemma answersFor_other (res : Resolver) (name dom : string) (qType : Z) :
  qType <> dns.TypeSRV -> qType <> dns.TypeAAAA ->
  qType <> dns.TypeA -> qType <> dns.TypeANY ->
  answersFor ResolveIPAddr res name dom qType [] = [].
Proof. intros. unfold answersFor. by repeat case_decide. Qed.

Lemma answersFor_missing (res : Resolver) (name dom : string) (qType : Z) :
  records.SRVs (rs res) !! dom = None ->
  answersFor ResolveIPAddr res name dom qType [] = [].
Proof.
  intros Hm. unfold answersFor.
  rewrite lookup_total_alt, Hm. cbn. by repeat case_decide.
Qed.

Lemma HandleMesos_empty (res : Resolver) (now : Z) (r : dns.Msg)
      (q : dns.Question) (qs : list dns.Question) :
  dns.Questions r = q :: qs ->
  answersFor ResolveIPAddr res (dns.Q_Name q) (cleanWild (dns.Q_Name q))
             (dns.Qtype q) [] = [] ->
  HandleMesos ResolveIPAddr res now r
  = Returned (dns.mkMsg (dns.Id r) true dns.OpcodeQuery true
                        (dns.RecursionDesired r) dns.RcodeSuccess [q]
                        [] [] []).
Proof.
  intros Hq He. rewrite (HandleMesos_unfold _ _ _ _ _ _ Hq), He. reflexivity.
Qed.

Lemma anyRecords_length (res : Resolver) (name dom : string)
      (targets : list string) :
  (length targets
   <= length (flat_map (anyRecords ResolveIPAddr res name dom) targets)
   <= 3 * length targets)%nat.
Proof.
  induction targets as [|t ts IH]; [cbn; lia|].
  cbn [flat_map]. rewrite length_app. cbn [length].
  assert (1 <= length (anyRecords ResolveIPAddr res name dom t) <= 3)%nat.
  { unfold anyRecords. rewrite !length_app.
    destruct (okRR (formatA ResolveIPAddr res name t)),
             (okRR (formatAAAA ResolveIPAddr res dom t)); cbn; lia. }
  lia.
Qed.

End HandlerMore.

(** X3. A question of type SRV gets one SRV record for each target filed
    under the cleaned name, no more and no fewer, and each record is
    named as the question was asked, wildcard included. *)
Theorem HandleMesos_SRV_answers `{RandSource}
        (ResolveIPAddr : string -> string -> result net.IPAddr)
        (res : Resolver) (now : Z) (r : dns.Msg)
        (q : dns.Question) (qs : list dns.Question) :
  dns.Questions r = q :: qs ->
  dns.Qtype q = dns.TypeSRV ->
  let targets := records.SRVs (rs res) !!! cleanWild (dns.Q_Name q) in
  exists m,
    HandleMesos ResolveIPAddr res now r = Returned m /\
    dns.Answer m ≡ₚ map (formatSRV res (dns.Q_Name q)) targets /\
    length (dns.Answer m) = length targets /\
    Forall (fun rr => dns.Name (dns.Header rr) = dns.Q_Name q) (dns.Answer m).
Proof.
  intros Hq Ht targets.
  destruct (HandleMesos_reply ResolveIPAddr res now r q qs Hq)
    as (m & Hm & _ & _ & _ & _ & Hp).
  rewrite Ht, answersFor_SRV in Hp. fold targets in Hp.
  exists m. split; [done|]. split; [done|]. split.
  - by rewrite Hp, length_map.
  - rewrite Hp. apply Forall_map, Forall_true. done.
Qed.

Lemma HandleMesos_SRV_answers_liquor :
  exists m,
    HandleMesos (H:=lcg) literalResolveIPAddr (mkResolver rsLiquor3 fakeConfig)
                9 (query liquorStore dns.TypeSRV) = Returned m /\
    dns.Answer m ≡ₚ map (formatSRV (mkResolver rsLiquor3 fakeConfig) liquorStore)
                        ["10.0.0.1"; "10.0.0.2"; "10.0.0.3"] /\
    length (dns.Answer m) = 3%nat /\
    Forall (fun rr => dns.Name (dns.Header rr) = liquorStore) (dns.Answer m).
Proof.
  apply (HandleMesos_SRV_answers (H:=lcg) literalResolveIPAddr
           (mkResolver rsLiquor3 fakeConfig) 9 (query liquorStore dns.TypeSRV)
           (dns.mkQuestion liquorStore dns.TypeSRV dns.ClassINET) []).
  - reflexivity.
  - reflexivity.
Defined.

(** X4. A question of type ANY gets, for each target filed under the
    cleaned name, an A record if the target resolves on [ip4], an AAAA
    record if it resolves on [ip6], and always an SRV record: between one
    and three records a target. *)
Theorem HandleMesos_ANY_answers `{RandSource}
        (ResolveIPAddr : string -> string -> result net.IPAddr)
        (res : Resolver) (now : Z) (r : dns.Msg)
        (q : dns.Question) (qs : list dns.Question) :
  dns.Questions r = q :: qs ->
  dns.Qtype q = dns.TypeANY ->
  let dom := cleanWild (dns.Q_Name q) in
  let targets := records.SRVs (rs res) !!! dom in
  exists m,
    HandleMesos ResolveIPAddr res now r = Returned m /\
    dns.Answer m ≡ₚ
      flat_map (anyRecords ResolveIPAddr res (dns.Q_Name q) dom) targets /\
    (length targets <= length (dns.Answer m) <= 3 * length targets)%nat.
Proof.
  intros Hq Ht dom targets.
  destruct (HandleMesos_reply ResolveIPAddr res now r q qs Hq)
    as (m & Hm & _ & _ & _ & _ & Hp).
  rewrite Ht, answersFor_ANY in Hp. fold dom targets in Hp.
  exists m. split; [done|]. split; [done|].
  rewrite Hp. apply anyRecords_length.
Qed.

Lemma HandleMesos_ANY_answers_chronos :
  exists m,
    HandleMesos (H:=lcg) literalResolveIPAddr (mkResolver rsChronos fakeConfig)
                4 (query chronos dns.TypeANY) = Returned m /\
    dns.Answer m ≡ₚ
      [dns.A (dns.mkHdr chronos dns.TypeA dns.ClassINET 60)
             [Byte.x0a; Byte.x8d; Byte.x8d; Byte.x0a];
       dns.SRV (dns.mkHdr chronos dns.TypeSRV dns.ClassINET 60)
               0 0 53 "10.141.141.10."] /\
    (1 <= length (dns.Answer m) <= 3)%nat.
Proof.
  apply (HandleMesos_ANY_answers (H:=lcg) literalResolveIPAddr
           (mkResolver rsChronos fakeConfig) 4 (query chronos dns.TypeANY)
           (dns.mkQuestion chronos dns.TypeANY dns.ClassINET) []).
  - reflexivity.
  - reflexivity.
Defined.

Section HandlerRecords.

Context `{RandSource}.
Variable ResolveIPAddr : string -> string -> result net.IPAddr.

(** What each record built by the handler looks like. *)
Lemma formatA_Ok (res : Resolver) (dom target : string) (rr : dns.RR) :
  formatA ResolveIPAddr res dom target = Ok rr ->
  exists addr,
    rr = dns.A (dns.mkHdr dom dns.TypeA dns.ClassINET
                          (uint32 (records.TTL (Config res)))) addr.
Proof.
  unfold formatA. destruct (ResolveIPAddr "ip4" target); [|done].
  intros [= <-]. by eexists.
Qed.

Lemma formatAAAA_Ok (res : Resolver) (dom target : string) (rr : dns.RR) :
  formatAAAA ResolveIPAddr res dom target = Ok rr ->
  exists addr,
    rr = dns.AAAA (dns.mkHdr dom dns.TypeAAAA dns.ClassINET
                             (uint32 (records.TTL (Config res)))) addr.
Proof.
  unfold formatAAAA. destruct (ResolveIPAddr "ip6" target); [|done].
  intros [= <-]. by eexists.
Qed.

Lemma Forall_omap_okRR {A} (P : dns.RR -> Prop) (f : A -> result dns.RR)
      (ts : list A) :
  (forall t rr, f t = Ok rr -> P rr) ->
  Forall P (omap (fun t => okRR (f t)) ts).
Proof.
  intros Hf. induction ts as [|t ts IH]; [constructor|].
  cbn [omap list_omap]. destruct (f t) as [rr|e] eqn:E; cbn [okRR]; [|done].
  constructor; [by eapply Hf|done].
Qed.

(** The records of an answer are of the type asked for, unless every
    type was asked for. *)
Lemma answersFor_type (res : Resolver) (name dom : string) (qType : Z) :
  qType <> dns.TypeANY ->
  Forall (fun rr => dns.Rrtype (dns.Header rr) = qType)
         (answersFor ResolveIPAddr res name dom qType []).
Proof.
  intros Hany.
  destruct (decide (qType = dns.TypeSRV)) as [->|Hsrv].
  { rewrite answersFor_SRV. by apply Forall_map, Forall_true. }
  destruct (decide (qType = dns.TypeAAAA)) as [->|Haaaa].
  { rewrite answersFor_AAAA. apply Forall_omap_okRR.
    by intros t rr (addr & ->)%formatAAAA_Ok. }
  destruct (decide (qType = dns.TypeA)) as [->|Ha].
  { rewrite answersFor_A. apply Forall_omap_okRR.
    by intros t rr (addr & ->)%formatA_Ok. }
  by rewrite answersFor_other.
Qed.

Lemma answersFor_builtBy (res : Resolver) (name dom : string) (qType : Z) :
  Forall (builtBy res) (answersFor ResolveIPAddr res name dom qType []).
Proof.
  assert (forall n t, builtBy res (formatSRV res n t)) as Hsrv by done.
  assert (forall d t rr, formatA ResolveIPAddr res d t = Ok rr -> builtBy res rr)
    as Ha by (by intros d t rr (addr & ->)%formatA_Ok).
  assert (forall d t rr, formatAAAA ResolveIPAddr res d t = Ok rr -> builtBy res rr)
    as Haaaa by (by intros d t rr (addr & ->)%formatAAAA_Ok).
  destruct (decide (qType = dns.TypeSRV)) as [->|?].
  { rewrite answersFor_SRV. by apply Forall_map, Forall_true. }
  destruct (decide (qType = dns.TypeAAAA)) as [->|?].
  { rewrite answersFor_AAAA. apply Forall_omap_okRR. eauto. }
  destruct (decide (qType = dns.TypeA)) as [->|?].
  { rewrite answersFor_A. apply Forall_omap_okRR. eauto. }
  destruct (decide (qType = dns.TypeANY)) as [->|?].
  { rewrite answersFor_ANY. apply Forall_flat_map, Forall_true.
    intros t. unfold anyRecords. rewrite !Forall_app. split; [|split].
    - destruct (formatA ResolveIPAddr res name t) eqn:E; cbn; eauto.
    - destruct (formatAAAA ResolveIPAddr res dom t) eqn:E; cbn; eauto.
    - by constructor. }
  by rewrite answersFor_other.
Qed.

End HandlerRecords.

(** X5. Unless the question is of type ANY, every record of the answer
    has the type of the question. *)
Theorem HandleMesos_answer_type `{RandSource}
        (ResolveIPAddr : string -> string -> result net.IPAddr)
        (res : Resolver) (now : Z) (r : dns.Msg)
        (q : dns.Question) (qs : list dns.Question) :
  dns.Questions r = q :: qs ->
  dns.Qtype q <> dns.TypeANY ->
  exists m,
    HandleMesos ResolveIPAddr res now r = Returned m /\
    Forall (fun rr => dns.Rrtype (dns.Header rr) = dns.Qtype q) (dns.Answer m).
Proof.
  intros Hq Hany.
  destruct (HandleMesos_reply ResolveIPAddr res now r q qs Hq)
    as (m & Hm & _ & _ & _ & _ & Hp).
  exists m. split; [done|]. rewrite Hp. by apply answersFor_type.
Qed.

Lemma HandleMesos_answer_type_liquor :
  exists m,
    HandleMesos (H:=lcg) literalResolveIPAddr (mkResolver rsLiquor3 fakeConfig)
                9 (query liquorStore dns.TypeSRV) = Returned m /\
    Forall (fun rr => dns.Rrtype (dns.Header rr) = dns.TypeSRV) (dns.Answer m).
Proof.
  apply (HandleMesos_answer_type (H:=lcg) literalResolveIPAddr
           (mkResolver rsLiquor3 fakeConfig) 9 (query liquorStore dns.TypeSRV)
           (dns.mkQuestion liquorStore dns.TypeSRV dns.ClassINET) []).
  - reflexivity.
  - discriminate.
Defined.

(** X6. Whatever is asked, every record of the answer is an A, AAAA or SRV
    record (never an SOA record) of class IN, with the type of its kind
    in the header and with the TTL of the configuration reduced modulo
    2^32, hence between 0 and 2^32-1 even for a negative TTL. *)
Theorem HandleMesos_answer_builtBy `{RandSource}
        (ResolveIPAddr : string -> string -> result net.IPAddr)
        (res : Resolver) (now : Z) (r : dns.Msg)
        (q : dns.Question) (qs : list dns.Question) :
  dns.Questions r = q :: qs ->
  exists m,
    HandleMesos ResolveIPAddr res now r = Returned m /\
    Forall (fun rr => builtBy res rr /\
                      0 <= dns.Ttl (dns.Header rr) < 2 ^ 32)
           (dns.Answer m).
Proof.
  intros Hq.
  destruct (HandleMesos_reply ResolveIPAddr res now r q qs Hq)
    as (m & Hm & _ & _ & _ & _ & Hp).
  exists m. split; [done|]. rewrite Hp.
  eapply Forall_impl; [apply answersFor_builtBy|].
  intros rr Hb. split; [done|]. destruct Hb as (_ & _ & ->).
  unfold uint32. apply Z.mod_pos_bound. lia.
Qed.

Lemma HandleMesos_answer_builtBy_chronos :
  exists m,
    HandleMesos (H:=lcg) literalResolveIPAddr (mkResolver rsChronos fakeConfig)
                4 (query chronos dns.TypeANY) = Returned m /\
    Forall (fun rr => builtBy (mkResolver rsChronos fakeConfig) rr /\
                      0 <= dns.Ttl (dns.Header rr) < 2 ^ 32)
           (dns.Answer m).
Proof.
  apply (HandleMesos_answer_builtBy (H:=lcg) literalResolveIPAddr
           (mkResolver rsChronos fakeConfig) 4 (query chronos dns.TypeANY)
           (dns.mkQuestion chronos dns.TypeANY dns.ClassINET) []).
  reflexivity.
Defined.

(** X7. Nothing is answered from thin air: when no target is filed under
    the cleaned name, or when the type asked for is none of A, AAAA, SRV
    and ANY, the answer section of the reply is empty. *)
Theorem HandleMesos_no_answer `{RandSource}
        (ResolveIPAddr : string -> string -> result net.IPAddr)
        (res : Resolver) (now : Z) (r : dns.Msg)
        (q : dns.Question) (qs : list dns.Question) :
  dns.Questions r = q :: qs ->
  records.SRVs (rs res) !! cleanWild (dns.Q_Name q) = None \/
  (dns.Qtype q <> dns.TypeSRV /\ dns.Qtype q <> dns.TypeAAAA /\
   dns.Qtype q <> dns.TypeA /\ dns.Qtype q <> dns.TypeANY) ->
  exists m,
    HandleMesos ResolveIPAddr res now r = Returned m /\
    dns.Answer m = [].
Proof.
  intros Hq Hcase.
  rewrite (HandleMesos_empty ResolveIPAddr res now r q qs Hq).
  - by eexists.
  - destruct Hcase as [Hm|(? & ? & ? & ?)].
    + by apply answersFor_missing.
    + by apply answersFor_other.
Qed.

Lemma HandleMesos_no_answer_NS :
  exists m,
    HandleMesos (H:=lcg) literalResolveIPAddr (mkResolver rsChronos fakeConfig)
                4 (query chronos dns.TypeNS) = Returned m /\
    dns.Answer m = [].
Proof.
  apply (HandleMesos_no_answer (H:=lcg) literalResolveIPAddr
           (mkResolver rsChronos fakeConfig) 4 (query chronos dns.TypeNS)
           (dns.mkQuestion chronos dns.TypeNS dns.ClassINET) []).
  - reflexivity.
  - right. repeat split; discriminate.
Defined.

(** X8. The reply to a standard query (opcode Query, the case in which
    every release of the library's [SetReply] behaves as modelled here)
    is tied to the request: the handler changes nothing of what
    [SetReply] has set, so the reply has the id, the opcode and the
    recursion-desired bit of the request, is marked as a response, and
    its question section holds the first question of the request and no
    other; and the handler marks it as authoritative, whatever it
    found. *)
Theorem HandleMesos_header `{RandSource}
        (ResolveIPAddr : string -> string -> result net.IPAddr)
        (res : Resolver) (now : Z) (r : dns.Msg)
        (q : dns.Question) (qs : list dns.Question) :
  dns.Questions r = q :: qs ->
  dns.Opcode r = dns.OpcodeQuery ->
  exists m,
    HandleMesos ResolveIPAddr res now r = Returned m /\
    dns.Id m = dns.Id r /\
    dns.Opcode m = dns.Opcode r /\
    dns.RecursionDesired m = dns.RecursionDesired r /\
    dns.Response m = true /\
    dns.Authoritative m = true /\
    dns.Questions m = [q].
Proof.
  intros Hq Hop. rewrite (HandleMesos_unfold _ _ _ _ _ _ Hq).
  unfold shuffleAnswers.
  edestruct shuffleFrom_Permutation as (l & -> & _); [reflexivity|lia|].
  eexists. split; [reflexivity|]. cbn. by rewrite Hop.
Qed.

Lemma HandleMesos_header_two_questions :
  exists m,
    HandleMesos (H:=lcg) literalResolveIPAddr (mkResolver rsChronos fakeConfig)
                4 twoQuestions = Returned m /\
    dns.Id m = 4711 /\
    dns.Opcode m = dns.OpcodeQuery /\
    dns.RecursionDesired m = false /\
    dns.Response m = true /\
    dns.Authoritative m = true /\
    dns.Questions m = [dns.mkQuestion chronos dns.TypeA dns.ClassINET].
Proof.
  exact (HandleMesos_header (H:=lcg) literalResolveIPAddr
           (mkResolver rsChronos fakeConfig) 4 twoQuestions
           (dns.mkQuestion chronos dns.TypeA dns.ClassINET)
           [dns.mkQuestion liquorStore dns.TypeSRV dns.ClassINET]
           eq_refl eq_refl).
Defined.

(** ** The guard around the handler *)

(** X9. Under [panicRecover] the handler for the domain never ends in a
    panic.  A request without a question, on which the handler faults
    before writing anything, gets exactly one reply, with the id of the
    request and the code 2 (server failure); for a request with a
    question the guard changes nothing. *)
Theorem panicRecover_HandleMesos `{RandSource}
        (ResolveIPAddr : string -> string -> result net.IPAddr)
        (res : Resolver) (now : Z) (r : dns.Msg) :
  (forall msg, snd (panicRecover (HandleMesosW ResolveIPAddr res now) r)
               <> Panicked msg) /\
  match dns.Questions r with
  | [] =>
      HandleMesosW ResolveIPAddr res now r
      = ([], Panicked "index out of range") /\
      panicRecover (HandleMesosW ResolveIPAddr res now) r
      = ([dns.mkMsg (dns.Id r) true dns.OpcodeQuery false
                    (dns.RecursionDesired r) dns.RcodeServerFailure
                    [] [] [] []],
         Returned tt)
  | _ :: _ =>
      exists m,
        HandleMesos ResolveIPAddr res now r = Returned m /\
        panicRecover (HandleMesosW ResolveIPAddr res now) r
        = ([m], Returned tt)
  end.
Proof.
  destruct (dns.Questions r) as [|q qs] eqn:Hq.
  - assert (HandleMesos ResolveIPAddr res now r = Panicked "index out of range")
      as Hp by (unfold HandleMesos, index; by rewrite Hq).
    unfold panicRecover, HandleMesosW. rewrite Hp.
    unfold dns.SetRcode, dns.SetReply. rewrite Hq. by cbn.
  - destruct (HandleMesos_reply ResolveIPAddr res now r q qs Hq)
      as (m & Hm & _).
    unfold panicRecover, HandleMesosW. rewrite Hm. cbn. split; [done|].
    by exists m.
Qed.

(** ** More on the wildcard *)

Section CleanWildMore.

Import strings.

Lemma replaceFrom_empty_length (skip : nat) (s old : string) :
  (String.length (replaceFrom skip s old "") <= String.length s)%nat.
Proof.
  revert skip. induction s as [|c s IH]; intros skip; [done|].
  cbn [replaceFrom String.length]. destruct skip as [|k].
  - destruct (HasPrefix (String c s) old).
    + change ("" +:+ ?x) with x. specialize (IH (Nat.pred (String.length old))). lia.
    + cbn [String.length]. specialize (IH O). lia.
  - specialize (IH k). lia.
Qed.

Lemma replaceFrom_present_length (s old : string) :
  old <> "" ->
  Contains s old = true ->
  (String.length (replaceFrom O s old "") < String.length s)%nat.
Proof.
  intros Hold. induction s as [|c s IH]; intros Hc.
  - destruct old; [done|discriminate].
  - cbn [Contains] in Hc. cbn [replaceFrom String.length].
    destruct (HasPrefix (String c s) old) eqn:Hp.
    + change ("" +:+ ?x) with x.
      pose proof (replaceFrom_empty_length (Nat.pred (String.length old)) s old).
      lia.
    + cbn [orb] in Hc. cbn [String.length]. specialize (IH Hc). lia.
Qed.

Lemma lowerByte_eqb_dot (c : ascii) :
  Ascii.eqb (lowerByte c) "." = Ascii.eqb c ".".
Proof. by destruct c as [[] [] [] [] [] [] [] []]. Qed.

Lemma lowerByte_eqb_star (c : ascii) :
  Ascii.eqb (lowerByte c) "*" = Ascii.eqb c "*".
Proof. by destruct c as [[] [] [] [] [] [] [] []]. Qed.

Lemma HasPrefix_wild_ToLower (s : string) :
  HasPrefix (ToLower s) ".*" = HasPrefix s ".*".
Proof.
  destruct s as [|a [|b s]]; cbn [ToLower HasPrefix]; [done| |].
  - by rewrite lowerByte_eqb_dot.
  - by rewrite lowerByte_eqb_dot, lowerByte_eqb_star, !HasPrefix_nil.
Qed.

Lemma Contains_wild_ToLower (s : string) :
  Contains (ToLower s) ".*" = Contains s ".*".
Proof.
  induction s as [|c s IH]; [done|].
  change (ToLower (String c s)) with (String (lowerByte c) (ToLower s)).
  cbn [Contains]. rewrite IH. f_equal.
  apply (HasPrefix_wild_ToLower (String c s)).
Qed.

Lemma replaceFrom_wild_ToLower (skip : nat) (s : string) :
  replaceFrom skip (ToLower s) ".*" "" = ToLower (replaceFrom skip s ".*" "").
Proof.
  revert skip. induction s as [|c s IH]; intros skip; [done|].
  change (ToLower (String c s)) with (String (lowerByte c) (ToLower s)).
  cbn [replaceFrom]. destruct skip as [|k]; [|apply IH].
  change (String (lowerByte c) (ToLower s)) with (ToLower (String c s)).
  rewrite HasPrefix_wild_ToLower.
  destruct (HasPrefix (String c s) ".*").
  - change ("" +:+ ?x) with x. apply IH.
  - cbn [ToLower]. by rewrite IH.
Qed.

End CleanWildMore.

(** X10. [cleanWild] never makes a name longer; a name with a [.*]
    always comes back strictly shorter; and the name comes back as it is
    exactly when it has no [.*]. *)
Theorem cleanWild_fixed (dom : string) :
  (String.length (cleanWild dom) <= String.length dom)%nat /\
  (strings.Contains dom ".*" = true ->
   (String.length (cleanWild dom) < String.length dom)%nat) /\
  (cleanWild dom = dom <-> strings.Contains dom ".*" = false).
Proof.
  unfold cleanWild. destruct (strings.Contains dom ".*") eqn:Hc.
  - pose proof (replaceFrom_present_length dom ".*" ltac:(done) Hc) as Hlt.
    unfold strings.Replace. rewrite decide_False by done.
    split; [lia|]. split; [done|]. split; [|done].
    intros Heq. rewrite Heq in Hlt. lia.
  - split; [lia|]. split; done.
Qed.

(** X11. [cleanWild] does not look at the case of the letters: cleaning
    the lower-case form of a name gives the lower-case form of the
    cleaned name. *)
Theorem cleanWild_ToLower (dom : string) :
  cleanWild (strings.ToLower dom) = strings.ToLower (cleanWild dom).
Proof.
  unfold cleanWild. rewrite Contains_wild_ToLower.
  destruct (strings.Contains dom ".*"); [|done].
  unfold strings.Replace. rewrite !decide_False by done.
  apply replaceFrom_wild_ToLower.
Qed.

(** ** More on the configuration *)

Section RecordsMore.

Import records.

Lemma foldl_local (c : string) (bad : list string) (init : bool) :
  foldl (fun local b => if decide (c = b) then true else local) init bad
  = init || bool_decide (c ∈ bad).
Proof.
  revert init. induction bad as [|b bad IH]; intros init; cbn [foldl].
  - by rewrite orb_false_r.
  - rewrite IH. destruct (decide (c = b)) as [->|Hne].
    + rewrite (bool_decide_eq_true_2 (b ∈ b :: bad)) by left.
      by rewrite orb_true_r.
    + destruct init; [done|]. cbn [orb].
      apply bool_decide_ext. rewrite elem_of_cons. tauto.
Qed.

Lemma nonLocalAddies_from (h : Host) (good cservers : list string) :
  foldl (fun good c =>
           let local := foldl (fun local b =>
                                 if decide (c = b) then true else local)
                              false (localAddies h) in
           if negb local then good ++ [c] else good)
        good cservers
  = good ++ filter (fun c => c ∉ localAddies h) cservers.
Proof.
  revert good. induction cservers as [|c cs IH]; intros good; cbn [foldl].
  - by rewrite app_nil_r.
  - rewrite IH, foldl_local. cbn [orb]. rewrite filter_cons.
    destruct (decide (c ∈ localAddies h)) as [Hin|Hout].
    + rewrite (bool_decide_eq_true_2 _ Hin). cbn [negb].
      by rewrite decide_False by (by intros Hn).
    + rewrite (bool_decide_eq_false_2 _ Hout). cbn [negb].
      by rewrite decide_True, <- app_assoc by done.
Qed.

Lemma rewriteAt_absent (s : string) :
  strings.Contains s "@" = false -> rewriteAt s = s.
Proof.
  intros Hc. rewrite <- Replace_at. by apply Replace_absent.
Qed.

Lemma dotEmail_idemp (email : string) :
  dotEmail (dotEmail email) = dotEmail email.
Proof.
  unfold dotEmail at 1.
  rewrite (rewriteAt_absent _ (dotEmail_no_at email)).
  by rewrite decide_True by apply dotEmail_last.
Qed.

Lemma lowerByte_ascii (c : ascii) :
  Nat.ltb (nat_of_ascii (strings.lowerByte c)) 128
  = Nat.ltb (nat_of_ascii c) 128.
Proof. by destruct c as [[] [] [] [] [] [] [] []]. Qed.

Lemma isASCII_ToLower (s : string) :
  isASCII s = true -> isASCII (strings.ToLower s) = true.
Proof.
  induction s as [|c s IH]; [done|]. cbn [isASCII strings.ToLower].
  rewrite lowerByte_ascii. intros [-> Hs]%andb_true_iff. by rewrite IH.
Qed.

Lemma lowerByte_idemp (c : ascii) :
  strings.lowerByte (strings.lowerByte c) = strings.lowerByte c.
Proof. by destruct c as [[] [] [] [] [] [] [] []]. Qed.

Lemma ToLower_idemp (s : string) :
  strings.ToLower (strings.ToLower s) = strings.ToLower s.
Proof.
  induction s as [|c s IH]; [done|]. cbn [strings.ToLower].
  by rewrite lowerByte_idemp, IH.
Qed.

(** What a call of [Check] that returns nil has gone through. *)
Lemma Check_success_inv (h : Host) (conf conf' : Config) :
  Check h conf = Returned (conf', None) ->
  Masters conf <> [] /\ 0 <= Port conf <= 65535 /\
  is_Some (lastByte (Email conf)) /\
  exists resolvers,
    resolversFor h conf = Returned resolvers /\
    conf' = mkConfig (Masters conf) (RefreshSeconds conf) (TTL conf)
              (Port conf) (strings.ToLower (Domain conf)) resolvers
              (Timeout conf) (File conf) (dotEmail (Email conf))
              ("mesos-dns." +:+ strings.ToLower (Domain conf) +:+ ".")
              (Listener conf) (Verbose conf) (VeryVerbose conf).
Proof.
  intros Hc.
  assert (Masters conf <> []) as Hm.
  { intros Hm. unfold Check in Hc. rewrite Hm in Hc. by cbn in Hc. }
  assert (0 <= Port conf <= 65535) as Hp.
  { destruct (decide (0 <= Port conf <= 65535)) as [|Hn]; [done|].
    unfold Check in Hc.
    rewrite decide_False in Hc by (destruct (Masters conf); [done|cbn; lia]).
    rewrite decide_True in Hc by lia. done. }
  rewrite Check_valid in Hc by done.
  destruct (resolversFor h conf) as [resolvers| |]; [|done|done].
  destruct (lastByte (Email conf)) as [c|]; [|done].
  injection Hc as <-. split; [done|]. split; [done|].
  split; [by eexists|]. by exists resolvers.
Qed.

End RecordsMore.

(** X12. [nonLocalAddies] keeps, in their order, exactly the servers that
    are not among the local addresses. *)
Theorem nonLocalAddies_filter (h : records.Host) (cservers : list string) :
  records.nonLocalAddies h cservers
  = filter (fun c => c ∉ records.localAddies h) cservers.
Proof. apply (nonLocalAddies_from h [] cservers). Qed.

(** X13. [Check] is idempotent on a configuration whose domain is made
    of ASCII bytes (the domains on which [strings.ToLower] is modelled
    as Go has it): such a configuration, once it has passed the check,
    passes it again, on the same machine, and comes back unchanged, its
    domain still made of ASCII bytes. *)
Theorem Check_idempotent (h : records.Host) (conf conf' : records.Config) :
  isASCII (records.Domain conf) = true ->
  records.Check h conf = Returned (conf', None) ->
  isASCII (records.Domain conf') = true /\
  records.Check h conf' = Returned (conf', None).
Proof.
  intros Hascii (Hm & Hp & [c Hl] & resolvers & Hr & ->)%Check_success_inv.
  split; [by apply isASCII_ToLower|].
  rewrite Check_valid by done. cbn.
  assert (records.resolversFor h
            (records.mkConfig (records.Masters conf)
               (records.RefreshSeconds conf) (records.TTL conf)
               (records.Port conf) (strings.ToLower (records.Domain conf))
               resolvers (records.Timeout conf) (records.File conf)
               (dotEmail (records.Email conf))
               ("mesos-dns." +:+ strings.ToLower (records.Domain conf) +:+ ".")
               (records.Listener conf) (records.Verbose conf)
               (records.VeryVerbose conf))
          = Returned resolvers) as ->.
  { unfold records.resolversFor in *. cbn.
    destruct resolvers as [|s resolvers]; [|done]. cbn.
    destruct (decide (length (records.Resolvers conf) = 0)%nat); [done|].
    injection Hr as Hr. rewrite Hr in *. done. }
  rewrite dotEmail_last, dotEmail_idemp, ToLower_idemp. reflexivity.
Qed.

Lemma Check_idempotent_confGood :
  isASCII (records.Domain confChecked) = true /\
  records.Check hostBare confChecked = Returned (confChecked, None).
Proof.
  apply (Check_idempotent hostBare confGood confChecked).
  - reflexivity.
  - reflexivity.
Defined.

(** X14. What [Check] leaves alone, for a configuration whose domain is
    made of ASCII bytes (the domains on which [strings.ToLower] is
    modelled as Go has it).  When it returns an error the configuration
    is untouched.  When it returns nil, the masters, the port, the TTL,
    the refresh period, the timeout, the file, the listener and the two
    verbosity levels are as before, the domain is the old one with its
    letters in lower case, and the Mname is [mesos-dns.], the new domain
    and a dot, whatever Mname was configured. *)
Theorem Check_frame (h : records.Host) (conf conf' : records.Config)
        (err : option string) :
  isASCII (records.Domain conf) = true ->
  records.Check h conf = Returned (conf', err) ->
  match err with
  | Some _ => conf' = conf
  | None =>
      records.Masters conf' = records.Masters conf /\
      records.Port conf' = records.Port conf /\
      records.TTL conf' = records.TTL conf /\
      records.RefreshSeconds conf' = records.RefreshSeconds conf /\
      records.Timeout conf' = records.Timeout conf /\
      records.File conf' = records.File conf /\
      records.Listener conf' = records.Listener conf /\
      records.Verbose conf' = records.Verbose conf /\
      records.VeryVerbose conf' = records.VeryVerbose conf /\
      records.Domain conf' = strings.ToLower (records.Domain conf) /\
      records.Mname conf' = "mesos-dns." +:+ records.Domain conf' +:+ "."
  end.
Proof.
  intros _. destruct err as [e|].
  - intros Hc. destruct (records.Masters conf) as [|m ms] eqn:Hm.
    { unfold records.Check in Hc. rewrite Hm in Hc.
      rewrite decide_True in Hc by done. by injection Hc. }
    destruct (decide (0 <= records.Port conf <= 65535)) as [Hp|Hp].
    + rewrite Check_valid in Hc by (done || congruence).
      destruct (records.resolversFor h conf); [|done|done].
      by destruct (lastByte (records.Email conf)).
    + unfold records.Check in Hc. rewrite Hm in Hc.
      rewrite decide_False in Hc by done.
      rewrite decide_True in Hc by lia. by injection Hc.
  - by intros (_ & _ & _ & resolvers & _ & ->)%Check_success_inv.
Qed.

Lemma Check_frame_confGood :
  records.Masters confChecked = records.Masters confGood /\
  records.Port confChecked = records.Port confGood /\
  records.TTL confChecked = records.TTL confGood /\
  records.RefreshSeconds confChecked = records.RefreshSeconds confGood /\
  records.Timeout confChecked = records.Timeout confGood /\
  records.File confChecked = records.File confGood /\
  records.Listener confChecked = records.Listener confGood /\
  records.Verbose confChecked = records.Verbose confGood /\
  records.VeryVerbose confChecked = records.VeryVerbose confGood /\
  records.Domain confChecked = strings.ToLower (records.Domain confGood) /\
  records.Mname confChecked
  = "mesos-dns." +:+ records.Domain confChecked +:+ ".".
Proof.
  exact (Check_frame hostBare confGood confChecked None eq_refl eq_refl).
Defined.

(** X15. With resolvers in the configuration [Check] does not look at the
    machine: neither [/etc/resolv.conf] nor the local addresses have any
    influence on what it returns. *)
Theorem Check_resolvers_given (h h' : records.Host) (conf : records.Config) :
  records.Resolvers conf <> [] ->
  records.Check h conf = records.Check h' conf.
Proof.
  intros Hr. unfold records.Check.
  assert (length (records.Resolvers conf) <> 0)%nat
    by (destruct (records.Resolvers conf); [done|cbn; lia]).
  repeat case_decide; done.
Qed.

Lemma Check_resolvers_given_confGood :
  records.Check hostBare confGood = records.Check hostTwoServers confGood.
Proof. apply (Check_resolvers_given hostBare hostTwoServers confGood). discriminate. Defined.

(** X16. Without resolvers in the configuration, a valid configuration
    gets as resolvers the servers of [/etc/resolv.conf] that are not
    local addresses, in their order, and this list may be empty: [Check]
    returns nil all the same. *)
Theorem Check_resolvers_from_host (h : records.Host) (conf : records.Config)
        (servers : list string) :
  records.Masters conf <> [] ->
  0 <= records.Port conf <= 65535 ->
  records.Email conf <> "" ->
  records.Resolvers conf = [] ->
  records.resolvConf h = Some servers ->
  exists conf',
    records.Check h conf = Returned (conf', None) /\
    records.Resolvers conf'
    = filter (fun c => c ∉ records.localAddies h) servers.
Proof.
  intros Hm Hp He Hr Hs. rewrite Check_valid by done.
  unfold records.resolversFor, records.GetLocalDNS. rewrite Hr, Hs. cbn.
  destruct (lastByte_is_Some _ He) as [c ->].
  eexists. split; [reflexivity|]. cbn.
  apply (nonLocalAddies_from h [] servers).
Qed.

Lemma Check_resolvers_from_host_all_local :
  exists conf',
    records.Check hostAllLocal confNoResolvers = Returned (conf', None) /\
    records.Resolvers conf' = [].
Proof.
  apply (Check_resolvers_from_host hostAllLocal confNoResolvers ["127.0.0.1"]).
  - discriminate.
  - cbn; lia.
  - discriminate.
  - reflexivity.
  - reflexivity.
Defined.

(** ** The command line *)

Lemma splitFrom_nonempty (skip : nat) (s sep cur : string) :
  strings.splitFrom skip s sep cur <> [].
Proof.
  revert skip cur. induction s as [|c s IH]; intros skip cur; [done|].
  cbn [strings.splitFrom]. destruct skip; [|apply IH].
  destruct (strings.HasPrefix (String c s) sep); [done|apply IH].
Qed.

Lemma LoadFromContext_masters_nonempty (c : cli.Context) (conf : records.Config) :
  cli.IsSet c "masters" = true ->
  records.Masters (records.LoadFromContext c conf) <> [].
Proof.
  intros Hs. unfold records.LoadFromContext. cbn. rewrite Hs.
  apply splitFrom_nonempty.
Qed.

(** X17. Once the flag [masters] is set on the command line, to any value,
    the empty string included, the list of masters is not empty, and the
    only error [Check] can still return is the one about the port. *)
Theorem LoadFromContext_masters (h : records.Host) (c : cli.Context)
        (conf conf' : records.Config) (e : string) :
  cli.IsSet c "masters" = true ->
  records.Check h (records.LoadFromContext c conf) = Returned (conf', Some e) ->
  records.Masters (records.LoadFromContext c conf) <> [] /\
  e = "Port must be between 0-65535".
Proof.
  intros Hs Hc.
  pose proof (LoadFromContext_masters_nonempty c conf Hs) as Hm.
  split; [done|].
  destruct (decide (0 <= records.Port (records.LoadFromContext c conf) <= 65535))
    as [Hp|Hp].
  - rewrite Check_valid in Hc by done.
    destruct (records.resolversFor h _); [|done|done].
    by destruct (lastByte _).
  - unfold records.Check in Hc.
    rewrite decide_False in Hc
      by (destruct (records.Masters (records.LoadFromContext c conf));
          [done|cbn; lia]).
    rewrite decide_True in Hc by lia. by injection Hc.
Qed.

Lemma LoadFromContext_masters_empty_string :
  records.Masters
    (records.LoadFromContext
       (flagsContext {[ "masters" := ""; "port" := "x" ]} (fun _ => 70000))
       records.New) <> [] /\
  "Port must be between 0-65535" = "Port must be between 0-65535".
Proof.
  apply (LoadFromContext_masters hostBare
           (flagsContext {[ "masters" := ""; "port" := "x" ]} (fun _ => 70000))
           records.New
           (records.LoadFromContext
              (flagsContext {[ "masters" := ""; "port" := "x" ]}
                            (fun _ => 70000))
              records.New)).
  - reflexivity.
  - reflexivity.
Defined.

(** X18. The defaults of [New] with the flags of the command line pass the
    check on every machine, as soon as the masters are given, the port,
    if given, is in 0..65535, and the e-mail, if given, is not empty:
    no flag has to be set but the masters. *)
Theorem Check_LoadFromContext_New (h : records.Host) (c : cli.Context) :
  cli.IsSet c "masters" = true ->
  (cli.IsSet c "port" = true -> 0 <= cli.Int c "port" <= 65535) ->
  (cli.IsSet c "email" = true -> cli.String_ c "email" <> "") ->
  exists conf',
    records.Check h (records.LoadFromContext c records.New)
    = Returned (conf', None).
Proof.
  intros Hm Hp He.
  rewrite Check_valid.
  - assert (exists resolvers,
               records.resolversFor h (records.LoadFromContext c records.New)
               = Returned resolvers) as [resolvers ->].
    { unfold records.resolversFor, records.LoadFromContext. cbn.
      destruct (cli.IsSet c "resolvers"); [|by eexists].
      destruct (strings.Split _ _) as [|s l] eqn:E; [|by eexists].
      by apply splitFrom_nonempty in E. }
    assert (records.Email (records.LoadFromContext c records.New) <> "") as Hne.
    { unfold records.LoadFromContext. cbn.
      destruct (cli.IsSet c "email"); [by apply He|done]. }
    destruct (lastByte_is_Some _ Hne) as [b ->]. by eexists.
  - by apply LoadFromContext_masters_nonempty.
  - unfold records.LoadFromContext. cbn.
    destruct (cli.IsSet c "port"); [by apply Hp|lia].
Qed.

Lemma Check_LoadFromContext_New_onlyMasters :
  exists conf',
    records.Check hostBare (records.LoadFromContext onlyMasters records.New)
    = Returned (conf', None).
Proof.
  apply (Check_LoadFromContext_New hostBare onlyMasters).
  - reflexivity.
  - discriminate.
  - discriminate.
Defined.

Example LoadFromContext_onlyMasters :
  records.Check hostBare (records.LoadFromContext onlyMasters records.New)
  = Returned
      (records.mkConfig ["10.0.0.1:5050"; "10.0.0.2:5050"] 60 60 53 "mesos"
                        ["8.8.8.8"] 5 "" "root.mesos-dns.mesos."
                        "mesos-dns.mesos." "0.0.0.0" false false,
       None).
Proof. vm_compute. reflexivity. Qed.

(** ** The loggers *)

Lemma after_snoc (calls : list logging.Call) (c : logging.Call) :
  logging.after (calls ++ [c]) = logging.call (logging.after calls) c.
Proof. unfold logging.after. by rewrite foldl_app. Qed.

(** X19. After the start of the program and any sequence of calls of
    [VerboseEnable] and [VeryVerboseEnable]: the loggers for information
    and for errors are as [init] made them, with date, time and file in
    every line; the verbose logger writes as soon as one of the two
    functions has been called and the very verbose one as soon as
    [VeryVerboseEnable] has, so that a level once enabled stays enabled
    and very verbose implies verbose; and a logger that has been enabled
    has no flag at all, because the variable [logopts] of the package is
    never assigned. *)
Theorem logging_after (calls : list logging.Call) :
  let v := logging.after calls in
  logging.logopts v = 0 /\
  logging.Info v = Some (logging.mkLogger logging.Stdout "INFO: " 19) /\
  logging.Error v = Some (logging.mkLogger logging.Stderr "ERROR: " 19) /\
  logging.Verbose v
  = Some (if bool_decide (calls = [])
          then logging.mkLogger logging.Discard "VERBOSE: " 19
          else logging.mkLogger logging.Stdout "VERBOSE: " 0) /\
  logging.VeryVerbose v
  = Some (if bool_decide (logging.CallVeryVerboseEnable ∈ calls)
          then logging.mkLogger logging.Stdout "VERY VERBOSE: " 0
          else logging.mkLogger logging.Discard "VERY VERBOSE: " 19) /\
  (logging.enabled (logging.VeryVerbose v) = true ->
   logging.enabled (logging.Verbose v) = true).
Proof.
  induction calls as [|c calls IH] using rev_ind; [by cbn|].
  cbn zeta in *. rewrite after_snoc.
  destruct IH as (Ho & Hi & He & Hv & Hvv & _).
  assert (bool_decide (calls ++ [c] = []) = false) as ->
    by (apply bool_decide_eq_false_2; by destruct calls).
  destruct c; cbn [logging.call].
  - assert (bool_decide (logging.CallVeryVerboseEnable
                           ∈ calls ++ [logging.CallVerboseEnable])
            = bool_decide (logging.CallVeryVerboseEnable ∈ calls)) as ->.
    { apply bool_decide_ext.
      rewrite elem_of_app, list_elem_of_singleton.
      split; [intros [?|?]; [done|discriminate]|by left]. }
    unfold logging.VerboseEnable. cbn. rewrite Ho.
    repeat split; done.
  - rewrite (bool_decide_eq_true_2
               (logging.CallVeryVerboseEnable
                  ∈ calls ++ [logging.CallVeryVerboseEnable]))
      by (apply elem_of_app; right; by left).
    unfold logging.VeryVerboseEnable, logging.VerboseEnable. cbn. rewrite Ho.
    repeat split; done.
Qed.
